(** * CricketIQ: the chat endpoint and the chat hook

    A shallow embedding of the two pieces of program logic of the
    repository:

    - [ChatView.post], the Django view of
      [.github/phase-2-mongodb/MONGODB-INTEGRATION-GUIDE.md] (Python): it
      asks the AI service for an aggregation pipeline, hands the pipeline to
      the MongoDB engine, fills the answer template from the result and
      optionally builds a chart payload;
    - [useChat], the React hook of the frontend (TypeScript) with its [ask]
      callback.

    Python dictionaries are association lists in insertion order, Python
    strings are [string]s, Python integers are [Z].  The two external
    services of the view (the AI service and the MongoDB engine) are
    arguments of the model, and every call to them is recorded in a log, so
    that "the store is not contacted" is a statement about that log. *)

From Stdlib Require Import String Ascii List ZArith NArith Bool Lia.
From Stdlib Require Import DecimalString.
Import ListNotations.
Open Scope string_scope.

(** ** Python values and the string operations the view uses *)

Module Py.

(** A Python [float], written the way [repr] prints it: an optional sign,
    the digits before the point (or before the exponent) and the rest of
    the text ([".5"], [".0"], ["e+22"], [".5e-07"]).  [repr] is injective
    on floats, so every float is one of these. *)
Inductive pyfloat : Type :=
| FNan
| FInf (negative : bool)
| FDec (negative : bool) (whole : N) (rest : string).

(** The values a result document holds (spec, data model: string, number
    or null). *)
Inductive value : Type :=
| VNone
| VStr (s : string)
| VInt (z : Z)
| VFloat (f : pyfloat).

(** A [dict] with string keys, in insertion order. *)
Definition dict : Type := list (string * value).

(** [key in d] *)
Definition dict_in (key : string) (d : dict) : bool :=
  existsb (fun kv => String.eqb (fst kv) key) d.

(** [d.get(key)]; [d[key]] where the key is present *)
Fixpoint dict_get (key : string) (d : dict) : option value :=
  match d with
  | [] => None
  | (k, v) :: d' => if String.eqb k key then Some v else dict_get key d'
  end.

(** [d.get(key, default)] *)
Definition dict_get_default (key : string) (default : value) (d : dict) : value :=
  match dict_get key d with
  | Some v => v
  | None => default
  end.

(** [isinstance(v, (int, float))] *)
Definition is_number (v : value) : bool :=
  match v with
  | VInt _ | VFloat _ => true
  | VNone | VStr _ => false
  end.

(** [bool(f)] for a float: only [0.0] and [-0.0] are false. *)
Definition float_truthy (f : pyfloat) : bool :=
  match f with
  | FDec _ 0%N ".0" => false
  | _ => true
  end.

(** [bool(v)] *)
Definition truthy (v : value) : bool :=
  match v with
  | VNone => false
  | VStr s => negb (String.eqb s "")
  | VInt z => negb (Z.eqb z 0)
  | VFloat f => float_truthy f
  end.

(** [str(z)] for an integer *)
Definition str_int (z : Z) : string :=
  NilZero.string_of_int (Z.to_int z).

Definition sign_text (negative : bool) : string :=
  if negative then "-" else "".

(** [str(f)] for a float *)
Definition str_float (f : pyfloat) : string :=
  match f with
  | FNan => "nan"
  | FInf negative => sign_text negative ++ "inf"
  | FDec negative whole rest =>
      sign_text negative ++ NilZero.string_of_uint (N.to_uint whole) ++ rest
  end.

(** [str(v)] *)
Definition str (v : value) : string :=
  match v with
  | VNone => "None"
  | VStr s => s
  | VInt z => str_int z
  | VFloat f => str_float f
  end.

(** A comma before every group of three digits, counted from the right. *)
Fixpoint group_thousands (digits : string) : string :=
  match digits with
  | EmptyString => EmptyString
  | String c rest =>
      let n := String.length rest in
      if (Nat.ltb 0 n && Nat.eqb (n mod 3) 0)%nat
      then String c ("," ++ group_thousands rest)
      else String c (group_thousands rest)
  end.

(** [format(v, ",")] as the f-string field [{v:,}] computes it for a
    number: the digits before the point are grouped, the sign and the rest
    are kept. *)
Definition format_comma (v : value) : string :=
  match v with
  | VInt z =>
      sign_text (z <? 0)%Z
      ++ group_thousands (NilZero.string_of_uint (N.to_uint (Z.abs_N z)))
  | VFloat (FDec negative whole rest) =>
      sign_text negative
      ++ group_thousands (NilZero.string_of_uint (N.to_uint whole)) ++ rest
  | other => str other
  end.

(** The scan of [s.replace(old, new)] for a non-empty [old]: left to right,
    occurrences do not overlap; [skip] is the number of characters of the
    occurrence just replaced that are still to be passed over. *)
Fixpoint replace_from (old new : string) (skip : nat) (s : string) : string :=
  match s with
  | EmptyString => EmptyString
  | String c rest =>
      match skip with
      | S k => replace_from old new k rest
      | O =>
          if String.prefix old s
          then new ++ replace_from old new (String.length old - 1) rest
          else String c (replace_from old new 0 rest)
      end
  end.

(** [s.replace("", new)]: [new] before every character and at the end. *)
Fixpoint intersperse (new : string) (s : string) : string :=
  match s with
  | EmptyString => new
  | String c rest => new ++ String c (intersperse new rest)
  end.

(** [s.replace(old, new)] *)
Definition replace (s old new : string) : string :=
  match old with
  | EmptyString => intersperse new s
  | String _ _ => replace_from old new 0 s
  end.

(** [sep.join(parts)] *)
Definition join (sep : string) (parts : list string) : string :=
  String.concat sep parts.

(** [s.replace(",", "")], character by character *)
Fixpoint without_commas (s : string) : string :=
  match s with
  | EmptyString => EmptyString
  | String c rest =>
      if Ascii.eqb c ","%char then without_commas rest
      else String c (without_commas rest)
  end.

(** [s[n:]] *)
Fixpoint drop (n : nat) (s : string) : string :=
  match n, s with
  | S k, String _ rest => drop k rest
  | _, _ => s
  end.

(** The scan of [s.split(token)] for a non-empty [token], which finds the
    occurrences [replace] finds. *)
Fixpoint split_from (token : string) (skip : nat) (s : string) : list string :=
  match s with
  | EmptyString => [EmptyString]
  | String c rest =>
      match skip with
      | S k => split_from token k rest
      | O =>
          if String.prefix token s
          then EmptyString :: split_from token (String.length token - 1) rest
          else
            match split_from token 0 rest with
            | segment :: segments => String c segment :: segments
            | [] => [String c EmptyString]
            end
      end
  end.

(** [s.split(token)] *)
Definition split (s token : string) : list string :=
  split_from token 0 s.

(** [token in s] *)
Fixpoint occurs (token s : string) : bool :=
  match s with
  | EmptyString => String.prefix token s
  | String _ rest => String.prefix token s || occurs token rest
  end.

End Py.

(** ** The chat endpoint: [ChatView.post] *)

Module ChatView.
Import Py.

(** One turn of [conversation_history]. *)
Record turn : Type := { role : string; text : string }.

(** The JSON operand of a stage; the view never looks inside it. *)
#[local] Unset Elimination Schemes.
Inductive json : Type :=
| JNull
| JString (s : string)
| JNumber (z : Z)
| JArray (items : list json)
| JObject (entries : list (string * json)).
#[local] Set Elimination Schemes.

(** One aggregation stage, [{stage_key: stage_operand}]. *)
Record stage : Type := { stage_key : string; stage_operand : json }.

Definition pipeline : Type := list stage.

(** [chart_suggestion]: a dictionary, or [None] for a JSON null. *)
Definition chart_suggestion : Type := option dict.

(** The dictionary [ai_service.get_generated_query] returns; a field is
    [None] when its key is absent. *)
Record ai_response : Type := {
  ai_error : option value;
  ai_pipeline : option pipeline;
  ai_collection : option string;
  ai_answer_template : option string;
  ai_chart_suggestion : option chart_suggestion
}.

(** The dictionary [engine.execute] returns: an ["error"] entry, or
    ["data"] with its shape named by ["type"]. *)
Inductive execution_result : Type :=
| ExecError (error : value)
| ExecDict (data : dict)
| ExecList (data : list dict)
| ExecEmpty
| ExecOther (type : string).

(** A call either returns or raises. *)
Inductive outcome (A : Type) : Type :=
| Returns (a : A)
| Raises.
Arguments Returns {A} a.
Arguments Raises {A}.

(** The engine object [get_mongo_engine()] returns, with its [execute]. *)
Record mongo_engine : Type := {
  execute : option pipeline -> string -> outcome execution_result
}.

(** The collaborators of the view. *)
Record services : Type := {
  get_generated_query : string -> list turn -> outcome ai_response;
  get_mongo_engine : outcome mongo_engine
}.

(** The calls the view makes, in the order it makes them. *)
Inductive call : Type :=
| CallGeneratedQuery (question : string) (history : list turn)
| CallGetMongoEngine
| CallExecute (pipeline : option pipeline) (collection : string).

(** Computations that log their calls and may raise. *)
Definition M (A : Type) : Type := list call -> outcome A * list call.

Definition ret {A} (a : A) : M A := fun log => (Returns a, log).

Definition bind {A B} (m : M A) (f : A -> M B) : M B :=
  fun log =>
    match m log with
    | (Returns a, log') => f a log'
    | (Raises, log') => (Raises, log')
    end.

Notation "x <- m ;; k" := (bind m (fun x => k))
  (at level 61, m at next level, right associativity).

Definition perform {A} (c : call) (result : outcome A) : M A :=
  fun log => (result, app log [c]).

(** [try: body except Exception: return handler], run from an empty log *)
Definition try_except {A} (body : M A) (handler : A) : A * list call :=
  match body [] with
  | (Returns a, log) => (a, log)
  | (Raises, log) => (handler, log)
  end.

(** The chart payload. *)
Record chart_data : Type := {
  chart_type : value;
  chart_title : value;
  labels : list string;
  values : list value
}.

(** The body of a [Response]: the errors of the serializer, an answer
    alone, or the answer with the pipeline that [json.dumps] prints as
    ["query_executed"] and the chart payload. *)
Inductive response_data : Type :=
| SerializerErrors (errors : string)
| AnswerOnly (answer : string)
| Answer (answer : string) (query_executed : option pipeline)
         (chart : option chart_data).

Record response : Type := { data : response_data; status : Z }.

Definition HTTP_200_OK : Z := 200.
Definition HTTP_400_BAD_REQUEST : Z := 400.
Definition HTTP_500_INTERNAL_SERVER_ERROR : Z := 500.

(** What [ChatRequestSerializer] makes of the request body. *)
Inductive request : Type :=
| Invalid (errors : string)
| Valid (question : string) (conversation_history : list turn).

(** The scan [for k, v in doc.items(): if k != "_id" and isinstance(v,
    (int, float)): ...; break]: the first numeric field other than ["_id"],
    in stored order. *)
Fixpoint first_numeric (doc : dict) : option value :=
  match doc with
  | [] => None
  | (k, v) :: doc' =>
      if negb (String.eqb k "_id") && is_number v then Some v
      else first_numeric doc'
  end.

(** The text that stands for one document, lines 159-172 and 179-190;
    [numeric_val] is [None] until the scan finds a number, and
    [if numeric_val:] asks for its truth value. *)
Definition fill_result (doc : dict) (final_answer : string) : string :=
  match dict_get "_id" doc with
  | Some name =>
      let numeric_val := first_numeric doc in
      let result_str :=
        match numeric_val with
        | Some v =>
            if truthy v then str name ++ " with " ++ format_comma v
            else str name
        | None => str name
        end in
      replace final_answer "{result}" result_str
  | None => final_answer
  end.

(** Lines 154-156: every [{{key}}] becomes [str(value)]. *)
Definition fill_fields (doc : dict) (final_answer : string) : string :=
  fold_left
    (fun answer kv => replace answer ("{{" ++ fst kv ++ "}}") (str (snd kv)))
    doc final_answer.

(** Lines 193-201: the loop that collects ["name (measure)"]. *)
Definition format_documents (result_data : list dict) : list string :=
  fold_left
    (fun formatted doc =>
       match dict_get "_id" doc with
       | Some name =>
           match first_numeric doc with
           | Some v =>
               app formatted [str name ++ " (" ++ format_comma v ++ ")"]
           | None => formatted
           end
       | None => formatted
       end)
    result_data [].

(** Lines 149-206: the answer for a result. *)
Definition format_answer (answer_template : string)
    (result : execution_result) : string :=
  let final_answer := answer_template in
  match result with
  | ExecDict result_data =>
      match result_data with
      | [] => final_answer
      | _ :: _ => fill_result result_data (fill_fields result_data final_answer)
      end
  | ExecList result_data =>
      match result_data with
      | [doc] => fill_result doc final_answer
      | _ =>
          let result_str := join ", " (format_documents result_data) in
          replace final_answer "{result}" result_str
      end
  | ExecEmpty => replace final_answer "{result}" "No data found"
  | ExecError _ | ExecOther _ => final_answer
  end.

(** Lines 218-225: labels and values are appended document by document. *)
Definition chart_step (acc : list string * list value) (doc : dict)
  : list string * list value :=
  match dict_get "_id" doc with
  | Some id =>
      let labels' := app (fst acc) [str id] in
      match first_numeric doc with
      | Some v => (labels', app (snd acc) [v])
      | None => (labels', snd acc)
      end
  | None => acc
  end.

(** Lines 209-225: the chart payload.  [chart_suggestion and
    chart_suggestion.get("type")] is true when the suggestion is a
    dictionary whose ["type"] entry is true (an empty dictionary has
    none). *)
Definition build_chart (suggestion : chart_suggestion)
    (result : execution_result) : option chart_data :=
  match suggestion with
  | Some suggestion =>
      match dict_get "type" suggestion with
      | Some type =>
          if truthy type then
            match result with
            | ExecList result_data =>
                if (3 <=? List.length result_data)%nat then
                  let series := fold_left chart_step result_data ([], []) in
                  Some {| chart_type := type;
                          chart_title :=
                            dict_get_default "title" (VStr "Analysis") suggestion;
                          labels := fst series;
                          values := snd series |}
                else None
            | _ => None
            end
          else None
      | None => None
      end
  | None => None
  end.

(** Lines 127-130: the entries of the AI response, with their defaults. *)
Definition collection_of (ai : ai_response) : string :=
  match ai_collection ai with Some c => c | None => "deliverywise" end.

Definition answer_template_of (ai : ai_response) : string :=
  match ai_answer_template ai with Some t => t | None => "{result}" end.

Definition chart_suggestion_of (ai : ai_response) : chart_suggestion :=
  match ai_chart_suggestion ai with Some s => s | None => Some [] end.

(** Lines 136-233: the response to what [engine.execute] returned. *)
Definition render (ai : ai_response) (execution_result : execution_result)
  : response :=
  match execution_result with
  | ExecError error =>
      {| data := AnswerOnly ("Error executing query: " ++ str error);
         status := HTTP_500_INTERNAL_SERVER_ERROR |}
  | _ =>
      {| data := Answer (format_answer (answer_template_of ai) execution_result)
                        (ai_pipeline ai)
                        (build_chart (chart_suggestion_of ai) execution_result);
         status := HTTP_200_OK |}
  end.

(** The response of the [except] clause, lines 235-240. *)
Definition unexpected_error : response :=
  {| data := AnswerOnly "An unexpected error occurred processing your request.";
     status := HTTP_500_INTERNAL_SERVER_ERROR |}.

(** The [try] block of [post], lines 118-233. *)
Definition post_body (svc : services) (question : string)
    (conversation_history : list turn) : M response :=
  ai <- perform (CallGeneratedQuery question conversation_history)
                (get_generated_query svc question conversation_history) ;;
  match ai_error ai with
  | Some error =>
      ret {| data := AnswerOnly ("Error generating query: " ++ str error);
             status := HTTP_500_INTERNAL_SERVER_ERROR |}
  | None =>
      let pipeline := ai_pipeline ai in
      let collection := collection_of ai in
      engine <- perform CallGetMongoEngine (get_mongo_engine svc) ;;
      execution_result <- perform (CallExecute pipeline collection)
                                  (execute engine pipeline collection) ;;
      ret (render ai execution_result)
  end.

(** [ChatView.post]: the response, and the calls made to produce it. *)
Definition post (svc : services) (req : request) : response * list call :=
  match req with
  | Invalid errors =>
      ({| data := SerializerErrors errors; status := HTTP_400_BAD_REQUEST |}, [])
  | Valid question conversation_history =>
      try_except (post_body svc question conversation_history)
                 unexpected_error
  end.

(** *** The notions the specification uses *)

(** A numeric field other than the bucket key. *)
Definition is_measure (kv : string * value) : bool :=
  negb (String.eqb (fst kv) "_id") && is_number (snd kv).

(** The measure of a document in the specification's words: the first
    numeric field in stored order. *)
Definition measure (doc : dict) : option value :=
  option_map snd (find is_measure doc).

(** A qualifying document has a bucket key ["_id"] and a numeric field. *)
Definition qualifies (doc : dict) : bool :=
  dict_in "_id" doc && existsb is_measure doc.

Definition qualifying_count (docs : list dict) : nat :=
  List.length (filter qualifies docs).

(** The string form of the bucket key. *)
Definition name_text (doc : dict) : string :=
  str (dict_get_default "_id" VNone doc).

(** ["<name> (<measure, thousands-separated>)"] *)
Definition pair_text (doc : dict) : string :=
  name_text doc ++ " ("
  ++ match measure doc with Some v => format_comma v | None => "" end
  ++ ")".

(** The measures of a list of documents, one for each that has one. *)
Definition measures (docs : list dict) : list value :=
  flat_map (fun doc => match measure doc with Some v => [v] | None => [] end)
           docs.

(** Modelled from the spec: the allow-list of stage keys of the Pipeline
    Validator (filter, group, sort, limit, project and the restricted
    join), under their MongoDB names.  No validator is in the source; the
    definition only says which descriptors the specification would
    reject. *)
Definition allowed_stage_key (key : string) : bool :=
  existsb (String.eqb key)
          ["$match"; "$group"; "$sort"; "$limit"; "$project"; "$lookup"].

Definition outside_allow_list (p : pipeline) : bool :=
  existsb (fun st => negb (allowed_stage_key (stage_key st))) p.

(** The two ways the AI service reports a failure, with the answer the
    view gives for each: the call raises, or the dictionary it returns has
    an ["error"] entry. *)
Inductive oracle_failure : outcome ai_response -> string -> Prop :=
| oracle_raises :
    oracle_failure Raises "An unexpected error occurred processing your request."
| oracle_reports (ai : ai_response) (error : value) :
    ai_error ai = Some error ->
    oracle_failure (Returns ai) ("Error generating query: " ++ str error).

(** The response of the view to the reply of [engine.execute], a raised
    exception included. *)
Definition respond (ai : ai_response) (reply : outcome execution_result)
  : response :=
  match reply with
  | Returns execution_result => render ai execution_result
  | Raises => unexpected_error
  end.

End ChatView.

(** ** The chat hook of the frontend: [useChat] *)

Module UseChat.
Local Open Scope list_scope.

(** A JavaScript string: its UTF-16 code units. *)
Definition js_string : Type := list N.

(** A string literal of the source (ASCII). *)
Definition lit (s : string) : js_string :=
  map N_of_ascii (list_ascii_of_string s).

(** The code units [String.prototype.trim] strips: WhiteSpace and
    LineTerminator of ECMAScript. *)
Definition is_whitespace (c : N) : bool :=
  match c with
  | 9 | 10 | 11 | 12 | 13 | 32 | 160 | 5760 | 8232 | 8233 | 8239 | 8287
  | 12288 | 65279 => true
  | _ => (8192 <=? c) && (c <=? 8202)
  end%N.

Fixpoint trim_start (s : js_string) : js_string :=
  match s with
  | [] => []
  | c :: s' => if is_whitespace c then trim_start s' else s
  end.

Definition trim_end (s : js_string) : js_string :=
  rev (trim_start (rev s)).

(** [s.trim()] *)
Definition trim (s : js_string) : js_string :=
  trim_end (trim_start s).

(** [question?.trim()]: [None] is [undefined]. *)
Definition optional_trim (question : option js_string) : option js_string :=
  option_map trim question.

(** The truth value of a string or [undefined]. *)
Definition string_truthy (s : option js_string) : bool :=
  match s with
  | Some (_ :: _) => true
  | Some [] | None => false
  end.

Inductive chart_kind : Type := Bar | Line | Pie.

(** [ChartData] of [types.ts]; the hook passes it on untouched. *)
Record ChartData : Type := {
  type : option chart_kind;
  labels : list js_string;
  values : list Z;
  title : js_string;
  x_axis : js_string;
  y_axis : js_string
}.

Inductive Role : Type := user | assistant.

(** [Message] of [types.ts]; an optional field that is absent is [None]
    (or [false] for [error]). *)
Record Message : Type := {
  id : js_string;
  role : Role;
  text : js_string;
  chartData : option ChartData;
  query_executed : option js_string;
  error : bool
}.

(** What the hook reads of the body [sendQuestion] resolves to: [answer]
    when it is a string, [chart_data] when it is not falsy,
    [query_executed] when present. *)
Record api_response : Type := {
  response_answer : option js_string;
  response_chart_data : option ChartData;
  response_query_executed : option js_string
}.

(** [await sendQuestion(trimmed)]: the promise resolves (to a body, or to
    null) or rejects. *)
Inductive api_outcome : Type :=
| Resolved (response : option api_response)
| Rejected.

(** The two readings of [Date.now()] one call of [ask] can make. *)
Record clock : Type := { sent_at : N; settled_at : N }.

(** What a call of [ask] does, in order. *)
Inductive effect : Type :=
| AppendMessage (m : Message)
| ClearMessages
| SetLoading (b : bool)
| SendQuestion (question : js_string)
| ConsoleError.

Definition decimal (n : N) : js_string :=
  lit (NilZero.string_of_uint (N.to_uint n)).

(** [a || b] for strings *)
Definition string_or (a : option js_string) (b : js_string) : js_string :=
  match a with
  | Some (c :: s) => c :: s
  | Some [] | None => b
  end.

(** [ask], with the value of [loading] its closure captured. *)
Definition ask (loading : bool) (now : clock)
    (sendQuestion : js_string -> api_outcome)
    (question : option js_string) : list effect :=
  let trimmed := optional_trim question in
  if negb (string_truthy trimmed) || loading then []
  else
    let trimmed := match trimmed with Some s => s | None => [] end in
    let userMessage :=
      {| id := lit "user-" ++ decimal (sent_at now);
         role := user;
         text := trimmed;
         chartData := None;
         query_executed := None;
         error := false |} in
    [AppendMessage userMessage; SetLoading true; SendQuestion trimmed]
    ++ match sendQuestion trimmed with
       | Resolved (Some response) =>
           [AppendMessage
              {| id := lit "bot-" ++ decimal (settled_at now);
                 role := assistant;
                 text :=
                   match response_answer response with
                   | Some answer => answer
                   | None =>
                       lit "I processed your request but couldn't format the text response."
                   end;
                 chartData := response_chart_data response;
                 query_executed :=
                   Some (string_or (response_query_executed response)
                           (lit "Direct knowledge retrieval."));
                 error := false |}]
       | Resolved None | Rejected =>
           [ConsoleError;
            AppendMessage
              {| id := lit "err-" ++ decimal (settled_at now);
                 role := assistant;
                 text :=
                   lit "I'm sorry, I encountered an error while fetching the statistics. Please try again in a moment.";
                 chartData := None;
                 query_executed := None;
                 error := true |}]
       end
    ++ [SetLoading false].

(** [clearChat] *)
Definition clearChat : list effect := [ClearMessages].

(** The state of the hook. *)
Record chat_state : Type := { messages : list Message; loading : bool }.

Definition apply_effect (st : chat_state) (e : effect) : chat_state :=
  match e with
  | AppendMessage m =>
      {| messages := messages st ++ [m]; loading := loading st |}
  | ClearMessages => {| messages := []; loading := loading st |}
  | SetLoading b => {| messages := messages st; loading := b |}
  | SendQuestion _ | ConsoleError => st
  end.

(** The state after the effects of a call have been applied. *)
Definition settle (st : chat_state) (effects : list effect) : chat_state :=
  fold_left apply_effect effects st.

(** The API requests among the effects. *)
Definition requests (effects : list effect) : list js_string :=
  flat_map (fun e => match e with SendQuestion q => [q] | _ => [] end) effects.

End UseChat.

(** ** Concrete requests and results *)

Module Scenarios.
Import Py ChatView.

(** Scenario A of the specification. *)
Definition kohli : dict :=
  [("_id", VStr "Virat Kohli"); ("total_runs", VInt 741)].

(** The same batter with no runs. *)
Definition kohli_duck : dict :=
  [("_id", VStr "Virat Kohli"); ("total_runs", VInt 0)].

(** Scenario C of the specification. *)
Definition abc : list dict :=
  [ [("_id", VStr "A"); ("runs", VInt 100)];
    [("_id", VStr "B"); ("runs", VInt 90)];
    [("_id", VStr "C"); ("runs", VInt 80)] ].

(** Three buckets, none with a numeric field. *)
Definition unmeasured : list dict :=
  [ [("_id", VStr "A")]; [("_id", VStr "B")]; [("_id", VStr "C")] ].

(** Three buckets, the first without a numeric field (an accumulator
    such as [$max] gives null for a group that has no value). *)
Definition a_unmeasured : list dict :=
  [ [("_id", VStr "A"); ("runs", VNone)];
    [("_id", VStr "B"); ("runs", VInt 90)];
    [("_id", VStr "C"); ("runs", VInt 80)] ].

Definition bar : chart_suggestion := Some [("type", VStr "bar")].

(** A descriptor whose second stage writes its input to a collection. *)
Definition writing_pipeline : pipeline :=
  [ {| stage_key := "$match";
       stage_operand := JObject [("batter", JString "Virat Kohli")] |};
    {| stage_key := "$out"; stage_operand := JString "scratch" |} ].

Definition writing_descriptor : ai_response :=
  {| ai_error := None;
     ai_pipeline := Some writing_pipeline;
     ai_collection := Some "deliverywise";
     ai_answer_template := Some "{result}";
     ai_chart_suggestion := None |}.

(** What Scenario E looks like to the view: the AI service could not parse
    the model's output and says so. *)
Definition unparsable : ai_response :=
  {| ai_error := Some (VStr "Failed to parse AI response");
     ai_pipeline := None;
     ai_collection := None;
     ai_answer_template := None;
     ai_chart_suggestion := None |}.

(** The charts the view builds for [abc] and for [a_unmeasured]. *)
Definition abc_chart : chart_data :=
  {| chart_type := VStr "bar";
     chart_title := VStr "Analysis";
     labels := ["A"; "B"; "C"];
     values := [VInt 100; VInt 90; VInt 80] |}.

Definition a_unmeasured_chart : chart_data :=
  {| chart_type := VStr "bar";
     chart_title := VStr "Analysis";
     labels := ["A"; "B"; "C"];
     values := [VInt 90; VInt 80] |}.

(** A hook that has shown nothing yet, and a backend that is down. *)
Definition fresh : UseChat.chat_state :=
  {| UseChat.messages := []; UseChat.loading := false |}.

Definition noon : UseChat.clock :=
  {| UseChat.sent_at := 1700000000000; UseChat.settled_at := 1700000000250 |}.

Definition backend_down (question : UseChat.js_string) : UseChat.api_outcome :=
  UseChat.Rejected.

(** Services that answer every call the same way. *)
Definition answering (ai : ai_response) (reply : outcome execution_result)
  : services :=
  {| get_generated_query := fun _ _ => Returns ai;
     get_mongo_engine := Returns {| execute := fun _ _ => reply |} |}.

End Scenarios.

(** ** The API client of the frontend: [sendQuestion] *)

Module Api.
Import UseChat.
Local Open Scope list_scope.

(** [ConversationMessage] of [services/api.ts]. *)
Record ConversationMessage : Type := {
  role : UseChat.Role;
  text : js_string
}.

(** The JSON body of the POST request. *)
Record request_body : Type := {
  question : js_string;
  conversation_history : list ConversationMessage
}.

(** [await response.json()]: the text is not JSON, or it is a value, of
    which the hook reads an [api_response] ([None] for [null]). *)
Inductive json_outcome : Type :=
| Unparsable
| Parsed (data : option api_response).

(** What the hook's side sees of a [Response]. *)
Record http_response : Type := {
  status : Z;
  body : json_outcome
}.

(** [await fetch(...)]: the promise rejects (no response at all) or
    resolves to a response, whatever its status. *)
Inductive fetch_outcome : Type :=
| FetchFailed
| Fetched (response : http_response).

(** [response.ok]: the status is in the range 200-299. *)
Definition ok (response : http_response) : bool :=
  ((200 <=? status response) && (status response <=? 299))%Z.

(** [sendQuestion(question, conversationHistory?)]; every exception is
    logged and thrown again, so that the promise rejects. *)
Definition sendQuestion (fetch : request_body -> fetch_outcome)
    (question : js_string)
    (conversationHistory : option (list ConversationMessage)) : api_outcome :=
  match fetch {| question := question;
                 conversation_history :=
                   match conversationHistory with
                   | Some history => history
                   | None => []
                   end |} with
  | FetchFailed => Rejected
  | Fetched response =>
      if negb (ok response) then Rejected
      else
        match body response with
        | Parsed data => Resolved data
        | Unparsable => Rejected
        end
  end.

End Api.

(** ** The input box: [ChatInput] *)

Module ChatInput.
Import UseChat.
Local Open Scope list_scope.

(** What the handlers of the component do, in order. *)
Inductive effect : Type :=
| PreventDefault
| OnSend (text : js_string)
| SetInput (value : js_string)
| ResetHeightLater.

(** [handleSubmit(e?)]: [event] tells whether an event was passed;
    [disabled] is false when the property is absent. *)
Definition handleSubmit (event : bool) (input : js_string) (disabled : bool)
  : list effect :=
  (if event then [PreventDefault] else [])
  ++ (if string_truthy (Some (trim input)) && negb disabled
      then [OnSend input; SetInput []; ResetHeightLater]
      else []).

(** [handleKeyDown(e)] *)
Definition handleKeyDown (key : js_string) (shiftKey : bool)
    (input : js_string) (disabled : bool) : list effect :=
  if (if list_eq_dec N.eq_dec key (lit "Enter") then true else false)
     && negb shiftKey
  then PreventDefault :: handleSubmit false input disabled
  else [].

(** The [disabled] attribute of the submit button. *)
Definition submit_disabled (input : js_string) (disabled : bool) : bool :=
  negb (string_truthy (Some (trim input))) || disabled.

(** The texts handed to [onSend]. *)
Definition sent (effects : list effect) : list js_string :=
  flat_map (fun e => match e with OnSend t => [t] | _ => [] end) effects.

End ChatInput.

(** ** The charts: [BarChart], [LineChart] and [ChartRenderer] *)

Module Charts.
Import UseChat.
Local Open Scope list_scope.

(** One entry of the array handed to recharts; [value] is [None] where
    [data.values[index]] is undefined. *)
Record point : Type := { name : js_string; value : option Z }.

(** [labels.map((label, index) => ({name: label, value: values[index]}))],
    from position [index] on. *)
Fixpoint points_from (index : nat) (labels : list js_string)
    (values : list Z) : list point :=
  match labels with
  | [] => []
  | label :: labels' =>
      {| name := label; value := nth_error values index |}
      :: points_from (S index) labels' values
  end.

(** [chartData] of [BarChart] and of [LineChart] *)
Definition chartData (data : ChartData) : list point :=
  points_from 0 (UseChat.labels data) (UseChat.values data).

(** What [ChartRenderer] shows. *)
Inductive rendering : Type :=
| Nothing
| BarChart (title : js_string) (points : list point)
| LineChart (title : js_string) (points : list point)
| PiePlaceholder (title : js_string).

(** [ChartRenderer] *)
Definition ChartRenderer (chart : option ChartData) : rendering :=
  match chart with
  | None => Nothing
  | Some data =>
      match UseChat.type data with
      | None => Nothing
      | Some Bar => BarChart (UseChat.title data) (chartData data)
      | Some Line => LineChart (UseChat.title data) (chartData data)
      | Some Pie => PiePlaceholder (UseChat.title data)
      end
  end.

End Charts.

(** ** The application: the components wired as [App.tsx] wires them *)

Module App.
Import UseChat.
Local Open Scope list_scope.

(** [sendQuestion] as the hook calls it: with the question alone. *)
Definition hook_sendQuestion (fetch : Api.request_body -> Api.fetch_outcome)
  : js_string -> api_outcome :=
  fun trimmed => Api.sendQuestion fetch trimmed None.

(** [<ChatInput onSend={ask} disabled={loading} />]: a submit of the input
    box, followed by the calls of [ask] it makes. *)
Definition submit (loading : bool) (now : clock)
    (sendQuestion : js_string -> api_outcome) (input : js_string)
  : list ChatInput.effect * list UseChat.effect :=
  let effects := ChatInput.handleSubmit true input loading in
  (effects,
   flat_map (fun text => ask loading now sendQuestion (Some text))
            (ChatInput.sent effects)).

(** The effects of a call of [ask] that run before it awaits the request,
    and those that run when the request has settled. *)
Fixpoint before_request (effects : list UseChat.effect)
  : list UseChat.effect :=
  match effects with
  | [] => []
  | SendQuestion _ :: _ => []
  | e :: rest => e :: before_request rest
  end.

Fixpoint after_request (effects : list UseChat.effect)
  : list UseChat.effect :=
  match effects with
  | [] => []
  | SendQuestion _ :: rest => rest
  | _ :: rest => after_request rest
  end.

End App.

(** ** More concrete inputs *)

Module MoreScenarios.
Import Py ChatView.

(** A document whose measure comes after a text field. *)
Definition southee : dict :=
  [("_id", VStr "TG Southee"); ("team", VStr "New Zealand");
   ("wickets", VInt 164)].

(** A backend that answers every request with status 500. *)
Definition failing_fetch (request : Api.request_body) : Api.fetch_outcome :=
  Api.Fetched
    {| Api.status := 500;
       Api.body :=
         Api.Parsed
           (Some {| UseChat.response_answer :=
                      Some (UseChat.lit "Error executing query: timeout");
                    UseChat.response_chart_data := None;
                    UseChat.response_query_executed := None |}) |}.

(** A backend that answers with a plain answer. *)
Definition plain_reply : UseChat.api_response :=
  {| UseChat.response_answer := Some (UseChat.lit "Virat Kohli with 741");
     UseChat.response_chart_data := None;
     UseChat.response_query_executed := Some [] |}.

Definition answering_fetch (request : Api.request_body) : Api.fetch_outcome :=
  Api.Fetched {| Api.status := 200; Api.body := Api.Parsed (Some plain_reply) |}.

(** A chart whose labels and values pair up. *)
Definition yearly : UseChat.ChartData :=
  {| UseChat.type := Some UseChat.Bar;
     UseChat.labels := [UseChat.lit "2021"; UseChat.lit "2022"];
     UseChat.values := [500; 650]%Z;
     UseChat.title := UseChat.lit "Yearly Runs";
     UseChat.x_axis := UseChat.lit "Year";
     UseChat.y_axis := UseChat.lit "Runs" |}.

(** Services whose engine cannot be reached. *)
Definition engine_down : services :=
  {| get_generated_query := fun _ _ => Returns Scenarios.writing_descriptor;
     get_mongo_engine := Raises |}.

End MoreScenarios.

(** ** Thousands separators, in the words of the specification *)

Module Separators.
Import Py ChatView.

(** [s[:n]] *)
Fixpoint take (n : nat) (s : string) : string :=
  match n, s with
  | S k, String c rest => String c (take k rest)
  | _, _ => EmptyString
  end.

(** A comma before every group of three characters. *)
Fixpoint triples (s : string) : string :=
  match s with
  | String a (String b (String c rest)) =>
      String "," (String a (String b (String c (triples rest))))
  | _ => s
  end.

(** Digits with thousands separators: the leading group of one to three
    digits, then every further group of three digits after a comma. *)
Definition thousands_separated (digits : string) : string :=
  let lead := (String.length digits - 1) mod 3 + 1 in
  take lead digits ++ triples (drop lead digits).

(** A measure, thousands-separated: the digits before the point are
    separated, the sign and what follows the digits are kept. *)
Definition separated (v : value) : string :=
  match v with
  | VInt z =>
      (if (z <? 0)%Z then "-" else "")
      ++ thousands_separated (NilZero.string_of_uint (N.to_uint (Z.abs_N z)))
  | VFloat (FDec negative whole rest) =>
      (if negative then "-" else "")
      ++ thousands_separated (NilZero.string_of_uint (N.to_uint whole))
      ++ rest
  | other => str other
  end.

(** ["<name> (<measure, thousands-separated>)"] for a document. *)
Definition separated_pair (doc : dict) : string :=
  name_text doc ++ " ("
  ++ match measure doc with Some v => separated v | None => "" end
  ++ ")".

(** A list result with large measures, a document without a bucket key
    and a document without a numeric field. *)
Definition ranking : list dict :=
  [ [("_id", VStr "A"); ("runs", VInt 1234567)];
    [("batter", VStr "nobody")];
    [("_id", VStr "C"); ("runs", VNone)];
    [("_id", VStr "B"); ("runs", VInt 9000)] ].

Definition kohli_career : dict :=
  [("_id", VStr "Virat Kohli"); ("total_runs", VInt 4008)].

End Separators.

(** * Properties *)

Import Py ChatView Scenarios Separators.

(** ** Strings *)

Lemma append_assoc (a b c : string) : (a ++ b) ++ c = a ++ (b ++ c).
Proof.
  induction a as [|x a IH]; simpl; [reflexivity | now rewrite IH].
Qed.

Lemma append_empty_r (a : string) : a ++ "" = a.
Proof.
  induction a as [|x a IH]; simpl; [reflexivity | now rewrite IH].
Qed.

Lemma prefix_append (p s : string) : String.prefix p (p ++ s) = true.
Proof.
  induction p as [|x p IH]; simpl.
  - now destruct s.
  - destruct (ascii_dec x x) as [_|ne]; [exact IH | now elim ne].
Qed.

(** A pattern none of whose characters is [c] cannot reach across a [c]. *)
Lemma prefix_stops_before (c : ascii) (p : string) :
  (forall n, String.get n p <> Some c) ->
  forall s tail,
    String.prefix p (s ++ String c tail) = true -> String.prefix p s = true.
Proof.
  induction p as [|x p IH]; intros Hp s tail H.
  - now destruct s.
  - destruct s as [|y s]; simpl in *.
    + destruct (ascii_dec x c) as [e|_]; [|discriminate].
      exfalso. apply (Hp 0). simpl. now rewrite e.
    + destruct (ascii_dec x y) as [_|_]; [|discriminate].
      apply (IH (fun n => Hp (S n)) s tail H).
Qed.

(** ** Thousands separators *)

Lemma without_commas_append (a b : string) :
  without_commas (a ++ b) = without_commas a ++ without_commas b.
Proof.
  induction a as [|c a IH]; simpl; [reflexivity|].
  destruct (Ascii.eqb c ","); simpl; now rewrite IH.
Qed.

Lemma without_commas_length (s : string) :
  String.length (without_commas s) <= String.length s.
Proof.
  induction s as [|c s IH]; simpl; [lia|].
  destruct (Ascii.eqb c ","); simpl; lia.
Qed.

Lemma without_commas_cons (c : ascii) (s : string) :
  without_commas (String c s)
  = if Ascii.eqb c "," then without_commas s else String c (without_commas s).
Proof.
  reflexivity.
Qed.

Lemma group_thousands_digits (digits : string) :
  without_commas digits = digits ->
  without_commas (group_thousands digits) = digits.
Proof.
  induction digits as [|c digits IH]; [reflexivity|].
  rewrite without_commas_cons.
  destruct (Ascii.eqb c ",") eqn:E; intros H.
  - exfalso. pose proof (without_commas_length digits) as L.
    rewrite H in L. simpl in L. lia.
  - injection H as H. cbn [group_thousands].
    destruct (Nat.ltb 0 (String.length digits)
              && Nat.eqb (String.length digits mod 3) 0);
      rewrite without_commas_cons, E.
    + change (without_commas ("," ++ group_thousands digits))
        with (without_commas (group_thousands digits)).
      now rewrite (IH H).
    + now rewrite (IH H).
Qed.

Lemma decimal_digits (d : Decimal.uint) :
  without_commas (NilEmpty.string_of_uint d) = NilEmpty.string_of_uint d.
Proof.
  induction d; simpl; congruence.
Qed.

Lemma decimal_without_commas (n : N) :
  without_commas (NilZero.string_of_uint (N.to_uint n))
  = NilZero.string_of_uint (N.to_uint n).
Proof.
  unfold NilZero.string_of_uint.
  destruct (N.to_uint n); try reflexivity; apply decimal_digits.
Qed.

(** [{z:,}] is [str(z)] with commas put in. *)
Lemma format_comma_int (z : Z) :
  without_commas (format_comma (VInt z)) = str (VInt z).
Proof.
  unfold format_comma, str, str_int.
  rewrite without_commas_append,
    (group_thousands_digits _ (decimal_without_commas (Z.abs_N z))).
  destruct z as [|p|p]; reflexivity.
Qed.

(** ** [str.replace] *)

Section Replace.

(** The token that is replaced: [first] followed by [others], where
    [first] is not among [others], so that two occurrences of the token
    never overlap.  Both placeholders of the view have this shape. *)
Variables (first : ascii) (others : string).
Hypothesis first_once : forall n, String.get n others <> Some first.

Local Abbreviation token := (String first others).

Variable new : string.

Lemma replace_from_skip (p tail : string) :
  replace_from token new (String.length p) (p ++ tail)
  = replace_from token new 0 tail.
Proof.
  induction p as [|x p IH]; simpl; [reflexivity | exact IH].
Qed.

Lemma replace_from_step (c : ascii) (rest : string) :
  replace_from token new 0 (String c rest)
  = if String.prefix token (String c rest)
    then new ++ replace_from token new (String.length others) rest
    else String c (replace_from token new 0 rest).
Proof.
  simpl. now rewrite Nat.sub_0_r.
Qed.

Lemma occurs_cons (c : ascii) (rest : string) :
  occurs token (String c rest) = false ->
  String.prefix token (String c rest) = false /\ occurs token rest = false.
Proof.
  change (occurs token (String c rest))
    with (String.prefix token (String c rest) || occurs token rest).
  apply orb_false_elim.
Qed.

(** No occurrence starts inside a segment that is free of the token,
    even when the token follows the segment. *)
Lemma no_match_across (c : ascii) (rest tail : string) :
  String.prefix token (String c rest) = false ->
  String.prefix token (String c rest ++ token ++ tail) = false.
Proof.
  simpl. intros H.
  destruct (ascii_dec first c) as [_|_]; [|reflexivity].
  destruct (String.prefix others (rest ++ String first (others ++ tail)))
    eqn:E; [|reflexivity].
  apply (prefix_stops_before first others first_once) in E.
  congruence.
Qed.

Lemma replace_absent (s : string) :
  occurs token s = false -> replace_from token new 0 s = s.
Proof.
  induction s as [|c s IH]; intros H; [reflexivity|].
  apply occurs_cons in H. destruct H as [Hp Ho].
  rewrite replace_from_step, Hp, (IH Ho). reflexivity.
Qed.

Lemma replace_segment (s tail : string) :
  occurs token s = false ->
  replace_from token new 0 (s ++ token ++ tail)
  = s ++ new ++ replace_from token new 0 tail.
Proof.
  induction s as [|c s IH]; intros H.
  - change ("" ++ token ++ tail) with (String first (others ++ tail)).
    rewrite replace_from_step.
    change (String first (others ++ tail)) with (token ++ tail).
    rewrite prefix_append, replace_from_skip. reflexivity.
  - apply occurs_cons in H. destruct H as [Hp Ho].
    change ((String c s ++ token ++ tail))
      with (String c (s ++ token ++ tail)) at 1.
    rewrite replace_from_step.
    change (String c (s ++ token ++ tail))
      with (String c s ++ token ++ tail).
    rewrite (no_match_across c s tail Hp), (IH Ho). reflexivity.
Qed.

(** [token.join(segments).replace(token, new) == new.join(segments)]
    when no segment holds the token. *)
Lemma replace_join (segments : list string) :
  Forall (fun segment => occurs token segment = false) segments ->
  replace (join token segments) token new = join new segments.
Proof.
  unfold replace, join.
  induction segments as [|x segments IH]; intros H; [reflexivity|].
  inversion H as [|? ? Hx Hrest]; subst.
  destruct segments as [|y segments].
  - simpl. now apply replace_absent.
  - change (String.concat token (x :: y :: segments))
      with (x ++ token ++ String.concat token (y :: segments)).
    change (String.concat new (x :: y :: segments))
      with (x ++ new ++ String.concat new (y :: segments)).
    rewrite (replace_segment _ _ Hx), (IH Hrest). reflexivity.
Qed.

End Replace.

(** ** [str.split] *)

Lemma prefix_drop (p s : string) :
  String.prefix p s = true -> p ++ drop (String.length p) s = s.
Proof.
  revert s. induction p as [|x p IH]; intros s H.
  - now destruct s.
  - destruct s as [|y s]; simpl in *; [discriminate|].
    destruct (ascii_dec x y) as [->|_]; [|discriminate].
    now rewrite (IH s H).
Qed.

Lemma prefix_monotone (p a b : string) :
  String.prefix p a = true -> String.prefix p (a ++ b) = true.
Proof.
  revert a. induction p as [|x p IH]; intros a H.
  - now destruct (a ++ b).
  - destruct a as [|y a]; simpl in *; [discriminate|].
    destruct (ascii_dec x y) as [_|_]; [now apply IH | discriminate].
Qed.

Lemma join_cons (sep x : string) (segments : list string) :
  segments <> [] ->
  join sep (x :: segments) = x ++ sep ++ join sep segments.
Proof.
  destruct segments as [|y segments]; [congruence | reflexivity].
Qed.

Lemma join_push (sep : string) (c : ascii) (segment : string)
    (segments : list string) :
  join sep (String c segment :: segments)
  = String c (join sep (segment :: segments)).
Proof.
  now destruct segments.
Qed.

Section Split.

Variables (first : ascii) (others : string).

Local Abbreviation token := (String first others).

Lemma split_from_step (c : ascii) (rest : string) :
  split_from token 0 (String c rest)
  = if String.prefix token (String c rest)
    then "" :: split_from token (String.length others) rest
    else match split_from token 0 rest with
         | segment :: segments => String c segment :: segments
         | [] => [String c ""]
         end.
Proof.
  simpl. now rewrite Nat.sub_0_r.
Qed.

Lemma split_from_nonempty (s : string) (skip : nat) :
  split_from token skip s <> [].
Proof.
  revert skip. induction s as [|c s IH]; intros skip; [discriminate|].
  destruct skip as [|k]; [|apply IH].
  rewrite split_from_step.
  destruct (String.prefix token (String c s)); [discriminate|].
  now destruct (split_from token 0 s).
Qed.

(** Joining the segments with the token gives the text back. *)
Lemma join_split_from (s : string) (skip : nat) :
  join token (split_from token skip s) = drop skip s.
Proof.
  revert skip. induction s as [|c s IH]; intros skip.
  - now destruct skip.
  - destruct skip as [|k]; [|apply IH].
    rewrite split_from_step.
    destruct (String.prefix token (String c s)) eqn:E.
    + rewrite join_cons by apply split_from_nonempty.
      rewrite IH. simpl in E |- *.
      destruct (ascii_dec first c) as [->|_]; [|discriminate].
      now rewrite (prefix_drop others s E).
    + specialize (IH 0).
      destruct (split_from token 0 s) as [|segment segments] eqn:Es.
      * now elim (split_from_nonempty s 0).
      * rewrite join_push, IH. reflexivity.
Qed.

Lemma split_head_is_prefix (s segment : string) (segments : list string) :
  split_from token 0 s = segment :: segments ->
  exists tail, s = segment ++ tail.
Proof.
  intros E. pose proof (join_split_from s 0) as J. rewrite E in J.
  change (drop 0 s) with s in J. destruct s; simpl in J.
  - destruct segments as [|y segments]; simpl in J.
    + exists "". now rewrite append_empty_r.
    + exists (token ++ join token (y :: segments)). now symmetry.
  - destruct segments as [|y segments].
    + exists "". now rewrite append_empty_r.
    + exists (token ++ join token (y :: segments)). now symmetry.
Qed.

(** No segment holds the token. *)
Lemma split_from_token_free (s : string) (skip : nat) :
  Forall (fun segment => occurs token segment = false)
         (split_from token skip s).
Proof.
  revert skip. induction s as [|c s IH]; intros skip.
  - repeat constructor.
  - destruct skip as [|k]; [|apply IH].
    rewrite split_from_step.
    destruct (String.prefix token (String c s)) eqn:E.
    + constructor; [reflexivity | apply IH].
    + specialize (IH 0).
      destruct (split_from token 0 s) as [|segment segments] eqn:Es.
      * now elim (split_from_nonempty s 0).
      * inversion IH as [|? ? Hsegment Hsegments]; subst.
        constructor; [|exact Hsegments].
        change (occurs token (String c segment))
          with (String.prefix token (String c segment)
                || occurs token segment).
        rewrite Hsegment, orb_false_r.
        destruct (split_head_is_prefix s segment segments Es) as [tail ->].
        destruct (String.prefix token (String c segment)) eqn:P;
          [|reflexivity].
        apply (prefix_monotone _ _ tail) in P. simpl in P, E. congruence.
Qed.

End Split.

Lemma result_token_first_once :
  forall n, String.get n "result}" <> Some "{"%char.
Proof.
  intros n. do 7 (destruct n as [|n]; [discriminate|]). discriminate.
Qed.

(** Every template is its segments joined by the [{result}] token, and
    no segment holds the token. *)
Lemma template_segments (answer_template : string) :
  join "{result}" (split answer_template "{result}") = answer_template
  /\ Forall (fun segment => occurs "{result}" segment = false)
            (split answer_template "{result}").
Proof.
  split.
  - apply (join_split_from "{" "result}" answer_template 0).
  - apply (split_from_token_free "{" "result}" answer_template 0).
Qed.

(** ** Documents *)

Lemma dict_in_get (key : string) (d : dict) :
  dict_in key d = match dict_get key d with Some _ => true | None => false end.
Proof.
  induction d as [|[k v] d IH]; simpl; [reflexivity|].
  destruct (String.eqb k key); simpl; [reflexivity | exact IH].
Qed.

(** The scan of the source finds the measure of the specification. *)
Lemma first_numeric_measure (doc : dict) : first_numeric doc = measure doc.
Proof.
  unfold measure.
  induction doc as [|[k v] doc IH]; simpl; [reflexivity|].
  unfold is_measure at 1. simpl.
  destruct (negb (String.eqb k "_id") && is_number v); [reflexivity | exact IH].
Qed.

Lemma existsb_measure (doc : dict) :
  existsb is_measure doc
  = match measure doc with Some _ => true | None => false end.
Proof.
  unfold measure.
  induction doc as [|kv doc IH]; simpl; [reflexivity|].
  destruct (is_measure kv); simpl; [reflexivity | exact IH].
Qed.

Lemma qualifies_spec (doc : dict) :
  qualifies doc
  = match dict_get "_id" doc, first_numeric doc with
    | Some _, Some _ => true
    | _, _ => false
    end.
Proof.
  unfold qualifies.
  rewrite dict_in_get, existsb_measure, first_numeric_measure.
  now destruct (dict_get "_id" doc), (measure doc).
Qed.

Lemma qualifying_count_le (docs : list dict) :
  qualifying_count docs <= List.length docs.
Proof.
  unfold qualifying_count.
  induction docs as [|doc docs IH]; simpl; [lia|].
  destruct (qualifies doc); simpl; lia.
Qed.

(** ** The answer for a list of documents *)

Lemma pair_text_qualifying (doc : dict) (name v : value) :
  dict_get "_id" doc = Some name -> first_numeric doc = Some v ->
  pair_text doc = str name ++ " (" ++ format_comma v ++ ")".
Proof.
  intros Hn Hv. unfold pair_text, name_text, dict_get_default.
  now rewrite <- first_numeric_measure, Hn, Hv.
Qed.

Lemma format_documents_from (docs : list dict) (formatted : list string) :
  fold_left
    (fun formatted doc =>
       match dict_get "_id" doc with
       | Some name =>
           match first_numeric doc with
           | Some v =>
               app formatted [str name ++ " (" ++ format_comma v ++ ")"]
           | None => formatted
           end
       | None => formatted
       end) docs formatted
  = app formatted (map pair_text (filter qualifies docs)).
Proof.
  revert formatted.
  induction docs as [|doc docs IH]; intros formatted.
  - cbn [fold_left filter map]. now rewrite app_nil_r.
  - cbn [fold_left filter]. rewrite IH, (qualifies_spec doc).
    destruct (dict_get "_id" doc) as [name|] eqn:En; [|reflexivity].
    destruct (first_numeric doc) as [v|] eqn:Ev; [|reflexivity].
    cbn [map]. rewrite (pair_text_qualifying doc name v En Ev).
    now rewrite <- app_assoc.
Qed.

Lemma format_documents_spec (docs : list dict) :
  format_documents docs = map pair_text (filter qualifies docs).
Proof.
  unfold format_documents. now rewrite format_documents_from.
Qed.

(** ** The chart series *)

Lemma chart_series_from (docs : list dict) (acc : list string * list value) :
  fold_left chart_step docs acc
  = (app (fst acc) (map name_text (filter (dict_in "_id") docs)),
     app (snd acc) (measures (filter (dict_in "_id") docs))).
Proof.
  revert acc.
  induction docs as [|doc docs IH]; intros [ls vs].
  - cbn. now rewrite !app_nil_r.
  - cbn [fold_left filter]. rewrite IH. unfold chart_step.
    rewrite (dict_in_get "_id" doc), (first_numeric_measure doc).
    destruct (dict_get "_id" doc) as [id|] eqn:Eid; [|reflexivity].
    unfold measures. cbn [map flat_map fst snd].
    unfold name_text at 2, dict_get_default. rewrite Eid.
    destruct (measure doc) as [v|]; cbn [fst snd];
      now rewrite <- !app_assoc.
Qed.

Lemma measures_length (docs : list dict) :
  List.length (measures (filter (dict_in "_id") docs)) = qualifying_count docs.
Proof.
  unfold qualifying_count, measures, qualifies.
  induction docs as [|doc docs IH]; simpl; [reflexivity|].
  rewrite (existsb_measure doc).
  destruct (dict_in "_id" doc); simpl; [|exact IH].
  destruct (measure doc); simpl; now rewrite IH.
Qed.

Lemma measures_length_le (docs : list dict) :
  List.length (measures docs) <= List.length docs.
Proof.
  unfold measures.
  induction docs as [|doc docs IH]; simpl; [lia|].
  destruct (measure doc); simpl; lia.
Qed.

(** Without a document that has a bucket key and no measure, labels and
    values are built in lockstep. *)
Lemma chart_series_aligned (docs : list dict) :
  Forall (fun doc => dict_in "_id" doc = true -> qualifies doc = true) docs ->
  List.length (fst (fold_left chart_step docs ([], [])))
  = List.length (snd (fold_left chart_step docs ([], []))).
Proof.
  intros H. rewrite chart_series_from. cbn [fst snd app].
  rewrite length_map. unfold measures.
  induction H as [|doc docs Hdoc _ IH]; [reflexivity|].
  cbn [filter]. destruct (dict_in "_id" doc) eqn:E; [|exact IH].
  specialize (Hdoc eq_refl). unfold qualifies in Hdoc.
  rewrite E, existsb_measure in Hdoc. cbn [flat_map length].
  destruct (measure doc); [|discriminate].
  cbn [app length]. now rewrite IH.
Qed.

(** ** The answer for one document *)

Lemma fill_result_measured (doc : dict) (name v : value)
    (final_answer : string) :
  dict_get "_id" doc = Some name -> first_numeric doc = Some v ->
  truthy v = true ->
  fill_result doc final_answer
  = replace final_answer "{result}" (str name ++ " with " ++ format_comma v).
Proof.
  intros Hn Hv Ht. unfold fill_result. now rewrite Hn, Hv, Ht.
Qed.

Lemma fill_result_zero (doc : dict) (name v : value) (final_answer : string) :
  dict_get "_id" doc = Some name -> first_numeric doc = Some v ->
  truthy v = false ->
  fill_result doc final_answer = replace final_answer "{result}" (str name).
Proof.
  intros Hn Hv Ht. unfold fill_result. now rewrite Hn, Hv, Ht.
Qed.

(** Scenarios A and C of the specification. *)
Example scenario_A :
  format_answer "{result}" (ExecDict kohli) = "Virat Kohli with 741".
Proof. reflexivity. Qed.

Example scenario_C : build_chart bar (ExecList abc) = Some abc_chart.
Proof. reflexivity. Qed.

Example thousands :
  format_comma (VInt 1234567) = "1,234,567"
  /\ format_comma (VInt (-1000)) = "-1,000"
  /\ format_comma (VInt 999) = "999"
  /\ format_comma (VFloat (FDec false 12345 ".5")) = "12,345.5".
Proof. repeat split. Qed.

(** ** The separators of the source are those of the specification *)

Lemma group_step (c : ascii) (rest : string) :
  group_thousands (String c rest)
  = String c (if (Nat.ltb 0 (String.length rest)
                  && Nat.eqb (String.length rest mod 3) 0)%nat
              then "," ++ group_thousands rest
              else group_thousands rest).
Proof.
  cbn [group_thousands].
  now destruct (Nat.ltb 0 (String.length rest)
                && Nat.eqb (String.length rest mod 3) 0)%nat.
Qed.

Lemma mod3_cases (n : nat) :
  exists m r, n = 3 * m + r /\ r < 3 /\ n mod 3 = r.
Proof.
  exists (n / 3), (n mod 3). repeat split.
  - apply Nat.div_mod_eq.
  - apply Nat.mod_upper_bound. discriminate.
Qed.

Lemma mod3_of (m r : nat) : r < 3 -> (3 * m + r) mod 3 = r.
Proof.
  intros H. rewrite Nat.add_comm, Nat.mul_comm, Nat.Div0.mod_add.
  now apply Nat.mod_small.
Qed.

(** After a digit that is followed by whole groups of three, the source
    puts a comma before each of the groups. *)
Lemma group_after_triple (s : string) (m : nat) :
  String.length s = 3 * m ->
  (if (Nat.ltb 0 (String.length s) && Nat.eqb (String.length s mod 3) 0)%nat
   then "," ++ group_thousands s else group_thousands s)
  = triples s.
Proof.
  revert s. induction m as [|m IH]; intros s H.
  - destruct s; [reflexivity | discriminate].
  - destruct s as [|a [|b [|c rest]]]; cbn [String.length] in H; try lia.
    assert (Hrest : String.length rest = 3 * m) by lia.
    replace (Nat.ltb 0 (String.length (String a (String b (String c rest))))
             && Nat.eqb
                  (String.length (String a (String b (String c rest))) mod 3)
                  0)%nat
      with true.
    2:{ cbn [String.length]. rewrite Hrest.
        replace (S (S (S (3 * m)))) with (3 * (S m) + 0) by lia.
        now rewrite mod3_of by lia. }
    rewrite !group_step. cbn [String.length]. rewrite Hrest.
    replace (S (S (3 * m))) with (3 * m + 2) by lia.
    replace (S (3 * m)) with (3 * m + 1) by lia.
    rewrite !mod3_of by lia. rewrite !andb_false_r.
    rewrite <- Hrest, (IH rest Hrest). reflexivity.
Qed.

Lemma group_thousands_spec (digits : string) :
  group_thousands digits = thousands_separated digits.
Proof.
  unfold thousands_separated.
  destruct digits as [|a s1]; [reflexivity|].
  replace (String.length (String a s1) - 1) with (String.length s1)
    by (cbn [String.length]; lia).
  destruct (mod3_cases (String.length s1)) as (m & r & Hlen & Hr & Hmod).
  rewrite Hmod.
  destruct r as [|[|[|r]]]; try lia.
  - cbn [Nat.add take drop]. rewrite group_step.
    rewrite (group_after_triple s1 m) by lia. reflexivity.
  - destruct s1 as [|b s2]; cbn [String.length] in Hlen; try lia.
    cbn [Nat.add take drop]. rewrite !group_step.
    rewrite (group_after_triple s2 m) by lia.
    cbn [String.length] in Hmod |- *. rewrite Hmod. now rewrite andb_false_r.
  - destruct s1 as [|b [|c s3]]; cbn [String.length] in Hlen; try lia.
    cbn [Nat.add take drop]. rewrite !group_step.
    rewrite (group_after_triple s3 m) by lia.
    cbn [String.length] in Hmod |- *. rewrite Hmod.
    replace (S (String.length s3)) with (3 * m + 1) by lia.
    rewrite mod3_of by lia. now rewrite !andb_false_r.
Qed.

(** [{v:,}] is the measure, thousands-separated. *)
Lemma format_comma_separated (v : value) : format_comma v = separated v.
Proof.
  destruct v as [|s|z|[|negative|negative whole rest]]; try reflexivity;
    unfold format_comma, separated, sign_text;
    now rewrite group_thousands_spec.
Qed.

Lemma pair_text_separated (doc : dict) : pair_text doc = separated_pair doc.
Proof.
  unfold pair_text, separated_pair.
  destruct (measure doc) as [v|]; [|reflexivity].
  now rewrite format_comma_separated.
Qed.

(** ** The claims *)

(** C1, counterexample: a descriptor with an [$out] stage, which the
    allow-list of the specification excludes, is handed to
    [engine.execute], and the request is answered with status 200. *)
Lemma write_stage_is_executed :
  outside_allow_list writing_pipeline = true
  /\ post (answering writing_descriptor (Returns ExecEmpty))
          (Valid "Who scored the most runs?" [])
     = ({| data := Answer "No data found" (Some writing_pipeline) None;
           status := 200 |},
        [CallGeneratedQuery "Who scored the most runs?" [];
         CallGetMongoEngine;
         CallExecute (Some writing_pipeline) "deliverywise"]).
Proof.
  split; reflexivity.
Qed.

(** C1, as amended: the view checks no stage.  Every descriptor the AI
    service returns without an ["error"] entry, whatever its stage keys,
    is handed unchanged to [engine.execute], once, and the response is
    decided by the reply of the engine alone. *)
Theorem every_descriptor_reaches_the_engine
    (svc : services) (question : string) (history : list turn)
    (ai : ai_response) (engine : mongo_engine) :
  get_generated_query svc question history = Returns ai ->
  ai_error ai = None ->
  get_mongo_engine svc = Returns engine ->
  post svc (Valid question history)
  = (respond ai (execute engine (ai_pipeline ai) (collection_of ai)),
     [CallGeneratedQuery question history; CallGetMongoEngine;
      CallExecute (ai_pipeline ai) (collection_of ai)]).
Proof.
  intros Hai Herr Hengine.
  unfold post, try_except, post_body, bind, perform, ret.
  rewrite Hai. cbn iota. rewrite Herr, Hengine. cbn.
  now destruct (execute engine (ai_pipeline ai) (collection_of ai)).
Qed.

Lemma every_descriptor_reaches_the_engine_witness :
  post (answering writing_descriptor (Returns (ExecDict kohli)))
       (Valid "Who scored the most runs?" [])
  = (respond writing_descriptor (Returns (ExecDict kohli)),
     [CallGeneratedQuery "Who scored the most runs?" [];
      CallGetMongoEngine;
      CallExecute (Some writing_pipeline) "deliverywise"]).
Proof.
  apply (every_descriptor_reaches_the_engine
           (answering writing_descriptor (Returns (ExecDict kohli)))
           "Who scored the most runs?" [] writing_descriptor
           {| execute := fun _ _ => Returns (ExecDict kohli) |});
    reflexivity.
Defined.

(** C2, counterexample: Scenario B of the specification.  The text around
    the token stays in the answer. *)
Lemma empty_result_keeps_surrounding_text :
  format_answer "{result} scored most" ExecEmpty = "No data found scored most"
  /\ "No data found scored most" <> "No data found".
Proof.
  split; [reflexivity | discriminate].
Qed.

(** C2, as amended: for an empty result, every [{result}] token of the
    template becomes ["No data found"] and the text between the tokens is
    kept: a template that is the segments [s0, s1, ..., sn] joined by the
    token, none of them holding the token, is answered by the same
    segments joined by ["No data found"]. *)
Theorem empty_result_replaces_each_token (segments : list string) :
  Forall (fun segment => occurs "{result}" segment = false) segments ->
  format_answer (join "{result}" segments) ExecEmpty
  = join "No data found" segments.
Proof.
  intros H. unfold format_answer.
  exact (replace_join "{" "result}" result_token_first_once
           "No data found" segments H).
Qed.

Lemma empty_result_replaces_each_token_witness :
  format_answer (join "{result}" [""; " scored most; {{batter}}: "; ""])
                ExecEmpty
  = join "No data found" [""; " scored most; {{batter}}: "; ""].
Proof.
  apply (empty_result_replaces_each_token
           [""; " scored most; {{batter}}: "; ""]).
  repeat constructor.
Defined.

(** C3, counterexample: three documents, none of which qualifies, and a
    suggested bar chart: the payload is built, with no value in it. *)
Lemma chart_of_unqualified_documents :
  qualifying_count unmeasured = 0
  /\ build_chart bar (ExecList unmeasured)
     = Some {| chart_type := VStr "bar";
               chart_title := VStr "Analysis";
               labels := ["A"; "B"; "C"];
               values := [] |}.
Proof.
  split; reflexivity.
Qed.

(** C3, as amended: a chart payload is built exactly when the suggestion
    is a dictionary whose ["type"] entry is true, the result is a list and
    the list has at least three documents, qualifying or not; in every
    other case, a list of fewer than three documents among them, the
    payload is null. *)
Theorem chart_built_iff (suggestion : chart_suggestion)
    (result : execution_result) :
  (exists chart, build_chart suggestion result = Some chart)
  <-> (exists d type docs,
          suggestion = Some d /\ dict_get "type" d = Some type
          /\ truthy type = true
          /\ result = ExecList docs /\ 3 <= List.length docs).
Proof.
  unfold build_chart. split.
  - intros [chart H].
    destruct suggestion as [d|]; [|discriminate].
    destruct (dict_get "type" d) as [type|] eqn:Etype; [|discriminate].
    destruct (truthy type) eqn:Etruthy; [|discriminate].
    destruct result as [e|doc|docs| |t]; try discriminate.
    destruct (3 <=? List.length docs)%nat eqn:Elen; [|discriminate].
    exists d, type, docs. apply Nat.leb_le in Elen. auto.
  - intros (d & type & docs & -> & Etype & Etruthy & -> & Hlen).
    rewrite Etype, Etruthy.
    apply Nat.leb_le in Hlen. rewrite Hlen. eauto.
Qed.

(** C4: the chart of three buckets the first of which has no numeric
    field has three labels and two values, so that label ["A"] stands
    before the value of ["B"]. *)
Theorem chart_label_without_value :
  build_chart bar (ExecList a_unmeasured)
  = Some a_unmeasured_chart
  /\ labels a_unmeasured_chart = ["A"; "B"; "C"]
  /\ values a_unmeasured_chart = [VInt 90; VInt 80]
  /\ List.length (labels a_unmeasured_chart) = 3
  /\ List.length (values a_unmeasured_chart) = 2.
Proof.
  repeat split.
Qed.

(** C5: a single document whose only numeric field is 0 is rendered as
    its name alone, while a list of several documents renders the same
    document with its measure. *)
Theorem zero_measure_is_dropped :
  format_answer "{result}" (ExecDict kohli_duck) = "Virat Kohli"
  /\ format_answer "{result}" (ExecList [kohli_duck]) = "Virat Kohli"
  /\ format_answer "{result}" (ExecList [kohli_duck; kohli])
     = "Virat Kohli (0), Virat Kohli (741)".
Proof.
  repeat split; reflexivity.
Qed.

(** C6: for a list result with more than one qualifying document, every
    [{result}] token of the template becomes the pairs
    ["<name> (<measure, thousands-separated>)"] of the qualifying
    documents, in the order of the list and joined by [", "]; documents
    without a bucket key or without a numeric field are skipped, and the
    rest of the template is kept. *)
Theorem many_documents_are_listed_in_order (segments : list string)
    (docs : list dict) :
  1 < qualifying_count docs ->
  Forall (fun segment => occurs "{result}" segment = false) segments ->
  format_answer (join "{result}" segments) (ExecList docs)
  = join (join ", " (map separated_pair (filter qualifies docs))) segments.
Proof.
  intros H Hfree. cbn [format_answer].
  destruct docs as [|doc [|doc' docs]].
  - cbn in H. lia.
  - exfalso. pose proof (qualifying_count_le [doc]) as Hle. simpl in Hle. lia.
  - rewrite format_documents_spec.
    rewrite (map_ext _ _ pair_text_separated).
    apply (replace_join "{" "result}" result_token_first_once _ _ Hfree).
Qed.

Lemma many_documents_are_listed_in_order_witness :
  format_answer (join "{result}" ["Top: "; "."]) (ExecList ranking)
  = "Top: A (1,234,567), B (9,000).".
Proof.
  rewrite (many_documents_are_listed_in_order ["Top: "; "."] ranking).
  - reflexivity.
  - vm_compute. lia.
  - repeat constructor.
Defined.

(** C7: when the AI service fails, by raising or by returning an
    ["error"] entry, the request ends with status 500 and the matching
    answer, and the only call made is the one to the AI service: the
    engine is neither fetched nor run. *)
Theorem oracle_failure_ends_the_request (svc : services) (question : string)
    (history : list turn) (answer : string) :
  oracle_failure (get_generated_query svc question history) answer ->
  post svc (Valid question history)
  = ({| data := AnswerOnly answer; status := HTTP_500_INTERNAL_SERVER_ERROR |},
     [CallGeneratedQuery question history]).
Proof.
  intros H. unfold post, try_except, post_body, bind, perform, ret.
  inversion H as [Hq | ai error Herr Hq]; cbn iota.
  - reflexivity.
  - now rewrite Herr.
Qed.

Lemma oracle_failure_ends_the_request_witness :
  post (answering unparsable (Returns (ExecDict kohli)))
       (Valid "Who scored the most runs?" [])
  = ({| data := AnswerOnly "Error generating query: Failed to parse AI response";
        status := HTTP_500_INTERNAL_SERVER_ERROR |},
     [CallGeneratedQuery "Who scored the most runs?" []]).
Proof.
  apply (oracle_failure_ends_the_request
           (answering unparsable (Returns (ExecDict kohli)))
           "Who scored the most runs?" []
           "Error generating query: Failed to parse AI response").
  exact (oracle_reports unparsable (VStr "Failed to parse AI response") eq_refl).
Defined.

(** C8: in a chart payload, the labels are the names of the documents
    that have a bucket key, the values are the measures of those among
    them that have one, both in the order of the list; there are as many
    values as qualifying documents, and never more values than labels. *)
Theorem chart_values_never_outnumber_labels (suggestion : chart_suggestion)
    (docs : list dict) (chart : chart_data) :
  build_chart suggestion (ExecList docs) = Some chart ->
  labels chart = map name_text (filter (dict_in "_id") docs)
  /\ values chart = measures (filter (dict_in "_id") docs)
  /\ List.length (values chart) = qualifying_count docs
  /\ List.length (values chart) <= List.length (labels chart).
Proof.
  unfold build_chart. intros H.
  destruct suggestion as [d|]; [|discriminate].
  destruct (dict_get "type" d) as [type|]; [|discriminate].
  destruct (truthy type); [|discriminate].
  destruct (3 <=? List.length docs)%nat; [|discriminate].
  injection H as <-. cbn [labels values].
  rewrite chart_series_from. cbn [fst snd app].
  repeat split.
  - apply measures_length.
  - rewrite length_map. apply measures_length_le.
Qed.

Lemma chart_values_never_outnumber_labels_witness :
  labels a_unmeasured_chart = map name_text (filter (dict_in "_id") a_unmeasured)
  /\ values a_unmeasured_chart = measures (filter (dict_in "_id") a_unmeasured)
  /\ List.length (values a_unmeasured_chart) = qualifying_count a_unmeasured
  /\ List.length (values a_unmeasured_chart)
     <= List.length (labels a_unmeasured_chart).
Proof.
  apply (chart_values_never_outnumber_labels bar a_unmeasured).
  reflexivity.
Defined.

(** C9: a chart payload built from a suggestion without a ["title"] entry
    has the title ["Analysis"], and its type is the ["type"] entry of the
    suggestion. *)
Theorem chart_title_defaults_to_analysis (d : dict)
    (result : execution_result) (chart : chart_data) :
  build_chart (Some d) result = Some chart ->
  dict_in "title" d = false ->
  chart_title chart = VStr "Analysis"
  /\ dict_get "type" d = Some (chart_type chart).
Proof.
  unfold build_chart. intros H Htitle.
  rewrite dict_in_get in Htitle.
  destruct (dict_get "type" d) as [type|]; [|discriminate].
  destruct (truthy type); [|discriminate].
  destruct result as [e|doc|docs| |t]; try discriminate.
  destruct (3 <=? List.length docs)%nat; [|discriminate].
  injection H as <-. cbn [chart_title chart_type].
  unfold dict_get_default.
  destruct (dict_get "title" d); [discriminate | auto].
Qed.

Lemma chart_title_defaults_to_analysis_witness :
  chart_title abc_chart = VStr "Analysis"
  /\ dict_get "type" [("type", VStr "bar")] = Some (chart_type abc_chart).
Proof.
  apply (chart_title_defaults_to_analysis [("type", VStr "bar")]
           (ExecList abc)); reflexivity.
Defined.

(** C10, counterexample: while the request for ["one"] is in flight the
    state has [loading = true], yet a second call through the same
    callback, whose closure holds [loading = false], sends a request for
    ["two"] and leaves three messages. *)
Lemma second_call_through_the_same_callback :
  UseChat.loading
    (UseChat.settle fresh
       (App.before_request
          (UseChat.ask false noon backend_down (Some (UseChat.lit "one")))))
  = true
  /\ UseChat.requests
       (UseChat.ask false noon backend_down (Some (UseChat.lit "two")))
     = [UseChat.lit "two"]
  /\ List.length
       (UseChat.messages
          (UseChat.settle
             (UseChat.settle fresh
                (App.before_request
                   (UseChat.ask false noon backend_down
                      (Some (UseChat.lit "one")))))
             (UseChat.ask false noon backend_down (Some (UseChat.lit "two")))))
     = 3.
Proof.
  repeat split.
Qed.

(** C10, as amended: a call of [ask] does nothing exactly when its
    question is blank or the value of [loading] its callback captured is
    true; then the messages and the loading flag stay as they are and no
    request is sent.  A call whose question is not blank, through a
    callback that captured [loading = false], sends its request whatever
    the state of the hook is by then. *)
Theorem ask_guard_reads_the_captured_loading (captured : bool)
    (now : UseChat.clock)
    (sendQuestion : UseChat.js_string -> UseChat.api_outcome)
    (question : UseChat.js_string) (st : UseChat.chat_state) :
  (UseChat.ask captured now sendQuestion (Some question) = []
   <-> UseChat.trim question = [] \/ captured = true)
  /\ UseChat.ask captured now sendQuestion None = []
  /\ (UseChat.trim question = [] \/ captured = true ->
      UseChat.settle st (UseChat.ask captured now sendQuestion (Some question))
      = st
      /\ UseChat.requests
           (UseChat.ask captured now sendQuestion (Some question))
         = [])
  /\ (UseChat.trim question <> [] -> captured = false ->
      UseChat.requests (UseChat.ask captured now sendQuestion (Some question))
      = [UseChat.trim question]).
Proof.
  assert (E : UseChat.trim question = [] \/ captured = true ->
              UseChat.ask captured now sendQuestion (Some question) = []).
  { unfold UseChat.ask, UseChat.optional_trim, option_map,
      UseChat.string_truthy.
    intros [-> | ->]; [reflexivity|]. now rewrite orb_true_r. }
  assert (S : UseChat.trim question <> [] -> captured = false ->
              UseChat.requests
                (UseChat.ask captured now sendQuestion (Some question))
              = [UseChat.trim question]).
  { unfold UseChat.ask, UseChat.optional_trim, option_map,
      UseChat.string_truthy.
    intros Hq ->.
    destruct (UseChat.trim question) as [|c trimmed]; [congruence|].
    cbn [negb orb].
    now destruct (sendQuestion (c :: trimmed)) as [[response|]|]. }
  repeat split.
  - intros Hnone.
    destruct (UseChat.trim question) as [|c trimmed] eqn:Et; [now left|].
    destruct captured; [now right|].
    assert (Hq : c :: trimmed <> []) by discriminate.
    specialize (S Hq eq_refl). rewrite Hnone in S. discriminate.
  - exact E.
  - now rewrite (E H).
  - now rewrite (E H).
  - exact S.
Qed.

Lemma ask_guard_reads_the_captured_loading_witness :
  UseChat.settle
    {| UseChat.messages := []; UseChat.loading := true |}
    (UseChat.ask true noon backend_down (Some (UseChat.lit "two")))
  = {| UseChat.messages := []; UseChat.loading := true |}
  /\ UseChat.requests
       (UseChat.ask true noon backend_down (Some (UseChat.lit "two")))
     = [].
Proof.
  apply (ask_guard_reads_the_captured_loading true noon backend_down
           (UseChat.lit "two")
           {| UseChat.messages := []; UseChat.loading := true |}).
  right. reflexivity.
Defined.

(** ** Further properties of the chat endpoint *)

Import MoreScenarios.

Lemma prefix_shorter (a b s : string) :
  String.prefix (a ++ b) s = true -> String.prefix a s = true.
Proof.
  revert s. induction a as [|x a IH]; intros s H.
  - now destruct s.
  - destruct s as [|y s]; simpl in *; [discriminate|].
    destruct (ascii_dec x y) as [_|_]; [now apply IH | discriminate].
Qed.

Lemma occurs_shorter (a b s : string) :
  occurs a s = false -> occurs (a ++ b) s = false.
Proof.
  induction s as [|c s IH]; cbn [occurs]; intros H.
  - destruct (String.prefix (a ++ b) "") eqn:E; [|reflexivity].
    apply prefix_shorter in E. congruence.
  - apply orb_false_elim in H. destruct H as [Hp Ho].
    rewrite (IH Ho), orb_false_r.
    destruct (String.prefix (a ++ b) (String c s)) eqn:E; [|reflexivity].
    apply prefix_shorter in E. congruence.
Qed.

Lemma replace_untouched (s old new : string) :
  old <> "" -> occurs old s = false -> replace s old new = s.
Proof.
  destruct old as [|first others]; [congruence|]. intros _ H.
  exact (replace_absent first others new s H).
Qed.

Lemma fill_fields_absent (doc : dict) (answer_template : string) :
  Forall (fun kv => occurs ("{{" ++ fst kv ++ "}}") answer_template = false)
         doc ->
  fill_fields doc answer_template = answer_template.
Proof.
  unfold fill_fields. induction 1 as [|kv doc Hkv _ IH]; [reflexivity|].
  cbn [fold_left].
  rewrite replace_untouched; [exact IH | discriminate | exact Hkv].
Qed.

(** X12: for a dict result, the substitution loop leaves the template
    as it is when none of its placeholders names a field of the document;
    when the template has no [{result}] token either, the template is the
    answer, so that a placeholder [{{field}}] of a field the document
    does not have stays verbatim in the answer. *)
Theorem absent_field_placeholders_stay (doc : dict)
    (answer_template : string) :
  Forall (fun kv => occurs ("{{" ++ fst kv ++ "}}") answer_template = false)
         doc ->
  fill_fields doc answer_template = answer_template
  /\ (occurs "{result}" answer_template = false ->
      format_answer answer_template (ExecDict doc) = answer_template).
Proof.
  intros H. pose proof (fill_fields_absent doc answer_template H) as E.
  split; [exact E|].
  intros Htoken. cbn [format_answer].
  destruct doc as [|kv doc]; [reflexivity|].
  rewrite E. unfold fill_result.
  destruct (dict_get "_id" (kv :: doc)); [|reflexivity].
  apply replace_untouched; [discriminate | exact Htoken].
Qed.

Lemma absent_field_placeholders_stay_witness :
  fill_fields southee "{{wickets_taken}} wickets for {{_ID}}"
  = "{{wickets_taken}} wickets for {{_ID}}"
  /\ (occurs "{result}" "{{wickets_taken}} wickets for {{_ID}}" = false ->
      format_answer "{{wickets_taken}} wickets for {{_ID}}" (ExecDict southee)
      = "{{wickets_taken}} wickets for {{_ID}}").
Proof.
  apply (absent_field_placeholders_stay southee
           "{{wickets_taken}} wickets for {{_ID}}").
  repeat constructor.
Defined.

Lemma fill_fields_without_braces (doc : dict) (answer_template : string) :
  occurs "{{" answer_template = false ->
  fill_fields doc answer_template = answer_template.
Proof.
  intros H. apply fill_fields_absent.
  apply Forall_forall. intros kv _.
  exact (occurs_shorter "{{" (fst kv ++ "}}") answer_template H).
Qed.

Lemma fill_result_without_brace (doc : dict) (answer_template : string) :
  occurs "{" answer_template = false ->
  fill_result doc answer_template = answer_template.
Proof.
  intros H. unfold fill_result.
  destruct (dict_get "_id" doc); [|reflexivity].
  apply replace_untouched; [discriminate|].
  exact (occurs_shorter "{" "result}" answer_template H).
Qed.

(** X5: a template without an opening brace is the answer, whatever the
    result. *)
Theorem plain_template_is_the_answer (answer_template : string)
    (result : execution_result) :
  occurs "{" answer_template = false ->
  format_answer answer_template result = answer_template.
Proof.
  intros H.
  assert (R : forall new, replace answer_template "{result}" new
                          = answer_template).
  { intros new. apply replace_untouched; [discriminate|].
    exact (occurs_shorter "{" "result}" answer_template H). }
  destruct result as [e|doc|docs| |t]; cbn [format_answer]; auto.
  - destruct doc as [|kv doc]; [reflexivity|].
    rewrite fill_fields_without_braces.
    + now apply fill_result_without_brace.
    + exact (occurs_shorter "{" "{" answer_template H).
  - destruct docs as [|doc [|doc' docs]]; auto.
    now apply fill_result_without_brace.
Qed.

Lemma plain_template_is_the_answer_witness :
  format_answer "India won by 6 wickets." (ExecList abc)
  = "India won by 6 wickets.".
Proof.
  apply (plain_template_is_the_answer "India won by 6 wickets." (ExecList abc)).
  reflexivity.
Defined.

(** X6: on a template without [{{], a list of one document is answered
    like that document alone. *)
Theorem one_document_list_as_dict (answer_template : string) (doc : dict) :
  occurs "{{" answer_template = false ->
  format_answer answer_template (ExecList [doc])
  = format_answer answer_template (ExecDict doc).
Proof.
  intros H. cbn [format_answer].
  destruct doc as [|kv doc]; [reflexivity|].
  now rewrite fill_fields_without_braces.
Qed.

Lemma one_document_list_as_dict_witness :
  format_answer "Most wickets: {result}" (ExecList [southee])
  = format_answer "Most wickets: {result}" (ExecDict southee).
Proof.
  apply (one_document_list_as_dict "Most wickets: {result}" southee).
  reflexivity.
Defined.

(** X7: the scan for the measure returns [v] exactly when the document
    splits into fields that are no measure, then a field other than
    ["_id"] that holds the number [v], then the rest. *)
Theorem first_numeric_is_first (doc : dict) (v : value) :
  first_numeric doc = Some v
  <-> exists before k after,
        doc = (before ++ (k, v) :: after)%list
        /\ k <> "_id" /\ is_number v = true
        /\ Forall (fun kv => is_measure kv = false) before.
Proof.
  split.
  - induction doc as [|[k w] doc IH]; cbn [first_numeric]; [discriminate|].
    destruct (negb (String.eqb k "_id") && is_number w) eqn:E.
    + intros [= ->]. apply andb_prop in E. destruct E as [Ek Ev].
      exists [], k, doc. repeat split; auto.
      intros ->. now rewrite String.eqb_refl in Ek.
    + intros H. destruct (IH H) as (before & k' & after & -> & Hk & Hv & Hb).
      exists ((k, w) :: before), k', after. repeat split; auto.
  - intros (before & k & after & -> & Hk & Hv & Hb).
    induction Hb as [|[k' w] before Hkw _ IH]; cbn [app first_numeric].
    + apply String.eqb_neq in Hk. now rewrite Hk, Hv.
    + unfold is_measure in Hkw. cbn [fst snd] in Hkw. now rewrite Hkw.
Qed.

(** X8: when every document that has a bucket key also has a measure,
    the labels and the values of the chart are built in lockstep: both
    follow the qualifying documents in order, label [i] and value [i]
    coming from the same document. *)
Theorem chart_lockstep (suggestion : chart_suggestion) (docs : list dict)
    (chart : chart_data) :
  build_chart suggestion (ExecList docs) = Some chart ->
  Forall (fun doc => dict_in "_id" doc = true -> qualifies doc = true) docs ->
  labels chart = map name_text (filter qualifies docs)
  /\ map Some (values chart) = map measure (filter qualifies docs)
  /\ List.length (labels chart) = List.length (values chart).
Proof.
  unfold build_chart. intros H Hall.
  destruct suggestion as [d|]; [|discriminate].
  destruct (dict_get "type" d) as [type|]; [|discriminate].
  destruct (truthy type); [|discriminate].
  destruct (3 <=? List.length docs)%nat; [|discriminate].
  injection H as <-. cbn [labels values].
  rewrite chart_series_from. cbn [fst snd app].
  assert (E : map name_text (filter (dict_in "_id") docs)
              = map name_text (filter qualifies docs)
              /\ map Some (measures (filter (dict_in "_id") docs))
                 = map measure (filter qualifies docs)).
  { clear -Hall. unfold measures.
    induction Hall as [|doc docs Hdoc _ [IHl IHv]]; [split; reflexivity|].
    cbn [filter]. destruct (dict_in "_id" doc) eqn:Ein.
    - rewrite (Hdoc eq_refl). specialize (Hdoc eq_refl).
      unfold qualifies in Hdoc. rewrite Ein, existsb_measure in Hdoc.
      cbn [map flat_map]. destruct (measure doc) as [v|]; [|discriminate].
      cbn [app map]. split; congruence.
    - assert (Q : qualifies doc = false)
        by (unfold qualifies; now rewrite Ein).
      rewrite Q. now split. }
  destruct E as [El Ev]. rewrite El. repeat split; [exact Ev|].
  rewrite <- (length_map Some (measures (filter (dict_in "_id") docs))), Ev.
  now rewrite !length_map.
Qed.

Lemma chart_lockstep_witness :
  labels abc_chart = map name_text (filter qualifies abc)
  /\ map Some (values abc_chart) = map measure (filter qualifies abc)
  /\ List.length (labels abc_chart) = List.length (values abc_chart).
Proof.
  apply (chart_lockstep bar abc abc_chart).
  - reflexivity.
  - repeat constructor.
Defined.

(** X9: for a list result that has not exactly one document, every
    [{result}] token becomes the list of the qualifying documents joined by
    [", "]; for an empty list, or when no document qualifies, the token
    becomes the empty text. *)
Theorem list_answer (segments : list string) (docs : list dict) :
  List.length docs <> 1 ->
  Forall (fun segment => occurs "{result}" segment = false) segments ->
  format_answer (join "{result}" segments) (ExecList docs)
  = join (join ", " (map pair_text (filter qualifies docs))) segments
  /\ (qualifying_count docs = 0 ->
      format_answer (join "{result}" segments) (ExecList docs)
      = join "" segments).
Proof.
  intros Hlen Hfree.
  assert (E : format_answer (join "{result}" segments) (ExecList docs)
              = join (join ", " (map pair_text (filter qualifies docs)))
                     segments).
  { cbn [format_answer].
    destruct docs as [|doc [|doc' docs]]; [|now elim Hlen|];
      rewrite format_documents_spec;
      apply (replace_join "{" "result}" result_token_first_once _ _ Hfree). }
  split; [exact E|].
  intros Hnone. rewrite E. unfold qualifying_count in Hnone.
  apply length_zero_iff_nil in Hnone. now rewrite Hnone.
Qed.

Lemma list_answer_witness :
  format_answer (join "{result}" ["Top scorers: "; "."]) (ExecList unmeasured)
  = join (join ", " (map pair_text (filter qualifies unmeasured)))
         ["Top scorers: "; "."]
  /\ (qualifying_count unmeasured = 0 ->
      format_answer (join "{result}" ["Top scorers: "; "."])
                    (ExecList unmeasured)
      = join "" ["Top scorers: "; "."]).
Proof.
  apply (list_answer ["Top scorers: "; "."] unmeasured).
  - discriminate.
  - repeat constructor.
Defined.

(** X10: for a one-document list whose document has a bucket key and a
    first numeric field that is not zero, every [{result}] token becomes
    ["<name> with <measure, thousands-separated>"], and the rest of the
    template is kept. *)
Theorem measured_document_answer (segments : list string) (doc : dict)
    (name v : value) :
  dict_get "_id" doc = Some name ->
  first_numeric doc = Some v ->
  truthy v = true ->
  Forall (fun segment => occurs "{result}" segment = false) segments ->
  format_answer (join "{result}" segments) (ExecList [doc])
  = join (str name ++ " with " ++ separated v) segments.
Proof.
  intros Hname Hv Htruthy Hfree. cbn [format_answer].
  rewrite (fill_result_measured doc name v _ Hname Hv Htruthy).
  rewrite format_comma_separated.
  apply (replace_join "{" "result}" result_token_first_once _ _ Hfree).
Qed.

Lemma measured_document_answer_witness :
  format_answer (join "{result}" ["Most runs: "; " runs"])
                (ExecList [kohli_career])
  = "Most runs: Virat Kohli with 4,008 runs".
Proof.
  rewrite (measured_document_answer ["Most runs: "; " runs"] kohli_career
             (VStr "Virat Kohli") (VInt 4008)).
  - reflexivity.
  - reflexivity.
  - reflexivity.
  - reflexivity.
  - repeat constructor.
Defined.

(** *** A [{{field}}] placeholder *)

(** Where the text before the token lacks the first character of the
    token, the first occurrence replaced is the token itself. *)
Lemma replace_at (first : ascii) (others new before after : string) :
  occurs (String first "") before = false ->
  replace_from (String first others) new 0
               (before ++ String first others ++ after)
  = before ++ new ++ replace_from (String first others) new 0 after.
Proof.
  intros H. induction before as [|c before IH].
  - change ("" ++ String first others ++ after)
      with (String first (others ++ after)).
    rewrite replace_from_step.
    change (String first (others ++ after))
      with (String first others ++ after).
    now rewrite prefix_append, replace_from_skip.
  - cbn [occurs] in H. apply orb_false_elim in H. destruct H as [Hc Hrest].
    change (String c before ++ String first others ++ after)
      with (String c (before ++ String first others ++ after)).
    rewrite replace_from_step.
    assert (P : String.prefix (String first others)
                  (String c (before ++ String first others ++ after))
                = false).
    { cbn [String.prefix] in Hc |- *.
      destruct (ascii_dec first c); [|reflexivity].
      now destruct before. }
    rewrite P, (IH Hrest). reflexivity.
Qed.

Lemma fill_fields_app (doc doc' : dict) (answer_template : string) :
  fill_fields (doc ++ doc')%list answer_template
  = fill_fields doc' (fill_fields doc answer_template).
Proof.
  unfold fill_fields. apply fold_left_app.
Qed.

(** X11: a placeholder [{{field}}] becomes the string form of the field:
    for a template [before ++ "{{k}}" ++ after] and a document that holds
    [k: v], the substitution loop gives [before ++ str(v) ++ after],
    provided that [before] has no brace, [after] has no second [{{k}}],
    no field stored before [k] is named by a placeholder of the template,
    and the text obtained has no [{{] left. *)
Theorem field_placeholder_is_filled (k : string) (v : value)
    (fields fields' : dict) (before after : string) :
  occurs "{" before = false ->
  occurs ("{{" ++ k ++ "}}") after = false ->
  Forall (fun kv =>
            occurs ("{{" ++ fst kv ++ "}}")
                   (before ++ ("{{" ++ k ++ "}}") ++ after) = false)
         fields ->
  occurs "{{" (before ++ str v ++ after) = false ->
  fill_fields (fields ++ (k, v) :: fields')%list
              (before ++ ("{{" ++ k ++ "}}") ++ after)
  = before ++ str v ++ after.
Proof.
  intros Hbefore Hafter Hfields Hclean.
  rewrite fill_fields_app, (fill_fields_absent _ _ Hfields).
  change ((k, v) :: fields') with ([(k, v)] ++ fields')%list.
  rewrite fill_fields_app.
  assert (E : fill_fields [(k, v)] (before ++ ("{{" ++ k ++ "}}") ++ after)
              = before ++ str v ++ after).
  { unfold fill_fields. cbn [fold_left fst snd].
    change ("{{" ++ k ++ "}}") with (String "{" (String "{" (k ++ "}}"))).
    unfold replace. rewrite (replace_at _ _ _ _ _ Hbefore).
    now rewrite (replace_absent _ _ _ _ Hafter). }
  rewrite E. now apply fill_fields_without_braces.
Qed.

Lemma field_placeholder_is_filled_witness :
  fill_fields ([("_id", VStr "TG Southee"); ("team", VStr "New Zealand")]
               ++ ("wickets", VInt 164) :: [])%list
              ("He took " ++ ("{{" ++ "wickets" ++ "}}") ++ " wickets.")
  = "He took " ++ str (VInt 164) ++ " wickets.".
Proof.
  apply (field_placeholder_is_filled "wickets" (VInt 164)
           [("_id", VStr "TG Southee"); ("team", VStr "New Zealand")] []
           "He took " " wickets.");
    try reflexivity.
  repeat constructor.
Defined.

(** *** The calls and the status of a response *)

Ltac run_post :=
  unfold post, try_except, post_body, bind, perform, ret; cbn [app].

(** X1: the view calls the AI service, then fetches the engine, then
    runs the pipeline, each at most once and never out of this order: the
    call log of a valid request is a non-empty prefix of these three
    calls, and an invalid request makes no call. *)
Theorem post_call_order (svc : services) (req : request) :
  match req with
  | Invalid _ => snd (post svc req) = []
  | Valid question history =>
      exists pipeline collection n,
        1 <= n <= 3
        /\ snd (post svc req)
           = firstn n [CallGeneratedQuery question history;
                       CallGetMongoEngine;
                       CallExecute pipeline collection]
  end.
Proof.
  destruct req as [errors|question history]; [reflexivity|].
  run_post.
  destruct (get_generated_query svc question history) as [ai|].
  - destruct (ai_error ai) as [error|].
    + exists None, "", 1. split; [lia | reflexivity].
    + destruct (get_mongo_engine svc) as [engine|].
      * exists (ai_pipeline ai), (collection_of ai), 3. split; [lia|].
        now destruct (execute engine (ai_pipeline ai) (collection_of ai)).
      * exists None, "", 2. split; [lia | reflexivity].
  - exists None, "", 1. split; [lia | reflexivity].
Qed.

(** X2: the response has status 200 exactly when the request is valid,
    the AI service returned a descriptor without an ["error"] entry, the
    engine was obtained, and [engine.execute] returned a result without an
    ["error"] entry. *)
Theorem post_ok_iff (svc : services) (req : request) :
  status (fst (post svc req)) = HTTP_200_OK
  <-> exists question history ai engine result,
        req = Valid question history
        /\ get_generated_query svc question history = Returns ai
        /\ ai_error ai = None
        /\ get_mongo_engine svc = Returns engine
        /\ execute engine (ai_pipeline ai) (collection_of ai) = Returns result
        /\ (forall error, result <> ExecError error).
Proof.
  split.
  - destruct req as [errors|question history]; [discriminate|].
    run_post.
    destruct (get_generated_query svc question history) as [ai|] eqn:Eai;
      [|discriminate].
    destruct (ai_error ai) as [error|] eqn:Eerr; [discriminate|].
    destruct (get_mongo_engine svc) as [engine|] eqn:Eengine; [|discriminate].
    destruct (execute engine (ai_pipeline ai) (collection_of ai))
      as [result|] eqn:Eresult; [|discriminate].
    intros H. exists question, history, ai, engine, result.
    repeat split; auto.
    intros error ->. discriminate.
  - intros (question & history & ai & engine & result
            & -> & Eai & Eerr & Eengine & Eresult & Hok).
    run_post. rewrite Eai. cbn iota. rewrite Eerr, Eengine. cbn iota.
    rewrite Eresult. cbn.
    destruct result as [error| | | |]; [now elim (Hok error)| | | |];
      reflexivity.
Qed.

(** X3: a response is an answer with the executed query and the chart
    only with status 200; with status 400 it is the errors of the
    serializer and nothing was called; every other response has status
    500 and holds an answer text alone. *)
Theorem post_response_shape (svc : services) (req : request) :
  (status (fst (post svc req)) = HTTP_200_OK
   /\ exists answer query chart,
        data (fst (post svc req)) = Answer answer query chart)
  \/ (status (fst (post svc req)) = HTTP_400_BAD_REQUEST
      /\ snd (post svc req) = []
      /\ exists errors, data (fst (post svc req)) = SerializerErrors errors)
  \/ (status (fst (post svc req)) = HTTP_500_INTERNAL_SERVER_ERROR
      /\ exists answer, data (fst (post svc req)) = AnswerOnly answer).
Proof.
  destruct req as [errors|question history].
  - right. left. cbn. eauto.
  - run_post.
    destruct (get_generated_query svc question history) as [ai|];
      [|right; right; cbn; eauto].
    destruct (ai_error ai) as [error|]; [right; right; cbn; eauto|].
    destruct (get_mongo_engine svc) as [engine|];
      [|right; right; cbn; eauto].
    destruct (execute engine (ai_pipeline ai) (collection_of ai))
      as [result|]; [|right; right; cbn; eauto].
    destruct result as [error| | | |];
      [right; right; cbn; eauto | left; cbn; eauto ..].
Qed.

(** X4: when the engine cannot be obtained, the pipeline is never run and
    the request ends with the generic answer and status 500. *)
Theorem engine_unavailable (svc : services) (question : string)
    (history : list turn) (ai : ai_response) :
  get_generated_query svc question history = Returns ai ->
  ai_error ai = None ->
  get_mongo_engine svc = Raises ->
  post svc (Valid question history)
  = (unexpected_error,
     [CallGeneratedQuery question history; CallGetMongoEngine]).
Proof.
  intros Eai Eerr Eengine. run_post.
  rewrite Eai. cbn iota. now rewrite Eerr, Eengine.
Qed.

Lemma engine_unavailable_witness :
  post engine_down (Valid "Who scored the most runs?" [])
  = (unexpected_error,
     [CallGeneratedQuery "Who scored the most runs?" []; CallGetMongoEngine]).
Proof.
  apply (engine_unavailable engine_down "Who scored the most runs?" []
           writing_descriptor); reflexivity.
Defined.

Lemma post_status_cases (svc : services) (req : request) :
  status (fst (post svc req)) = 200%Z
  \/ status (fst (post svc req)) = 400%Z
  \/ status (fst (post svc req)) = 500%Z.
Proof.
  destruct req as [errors|question history]; [now right; left|].
  run_post.
  destruct (get_generated_query svc question history) as [ai|];
    [|now right; right].
  destruct (ai_error ai) as [error|]; [now right; right|].
  destruct (get_mongo_engine svc) as [engine|]; [|now right; right].
  destruct (execute engine (ai_pipeline ai) (collection_of ai)) as [result|];
    [|now right; right].
  destruct result; cbn; auto.
Qed.

(** ** The API client *)

(** X13: [sendQuestion] resolves, with the parsed body, exactly when the
    request got a response whose status is in 200-299 and whose body is
    JSON; a failed request, any other status and an unparsable body all
    reject. *)
Theorem sendQuestion_resolves_iff
    (fetch : Api.request_body -> Api.fetch_outcome)
    (question : UseChat.js_string)
    (history : option (list Api.ConversationMessage))
    (data : option UseChat.api_response) :
  Api.sendQuestion fetch question history = UseChat.Resolved data
  <-> exists status,
        fetch {| Api.question := question;
                 Api.conversation_history :=
                   match history with Some h => h | None => [] end |}
        = Api.Fetched {| Api.status := status; Api.body := Api.Parsed data |}
        /\ (200 <= status <= 299)%Z.
Proof.
  unfold Api.sendQuestion, Api.ok. split.
  - destruct (fetch _) as [|[status body]]; [discriminate|].
    cbn [Api.status Api.body].
    destruct ((200 <=? status)%Z && (status <=? 299)%Z) eqn:E;
      [|discriminate].
    cbn [negb]. destruct body as [|data']; [discriminate|].
    intros [= ->]. exists status. split; [reflexivity|].
    apply andb_prop in E. lia.
  - intros (status & -> & Hstatus). cbn [Api.status Api.body].
    replace ((200 <=? status)%Z && (status <=? 299)%Z) with true;
      [reflexivity|].
    symmetry. apply andb_true_intro. split; lia.
Qed.

(** X14: every response of the view whose status is not 200 makes
    [sendQuestion] reject, whatever its body: the answer texts the view
    sends with status 400 or 500 do not reach the hook. *)
Theorem view_errors_are_rejected (svc : services) (req : request)
    (fetch : Api.request_body -> Api.fetch_outcome)
    (question : UseChat.js_string)
    (history : option (list Api.ConversationMessage))
    (body : Api.json_outcome) :
  status (fst (post svc req)) <> HTTP_200_OK ->
  fetch {| Api.question := question;
           Api.conversation_history :=
             match history with Some h => h | None => [] end |}
  = Api.Fetched {| Api.status := status (fst (post svc req));
                   Api.body := body |} ->
  Api.sendQuestion fetch question history = UseChat.Rejected.
Proof.
  intros Hstatus Hfetch. unfold Api.sendQuestion, Api.ok.
  rewrite Hfetch. cbn [Api.status Api.body].
  destruct (post_status_cases svc req) as [E|[E|E]]; rewrite E;
    [now elim Hstatus | reflexivity | reflexivity].
Qed.

Lemma view_errors_are_rejected_witness :
  Api.sendQuestion
    (fun _ =>
       Api.Fetched
         {| Api.status := status (fst (post engine_down (Valid "q" [])));
            Api.body := Api.Parsed (Some plain_reply) |})
    (UseChat.lit "q") None
  = UseChat.Rejected.
Proof.
  apply (view_errors_are_rejected engine_down (Valid "q" [])
           (fun _ =>
              Api.Fetched
                {| Api.status := status (fst (post engine_down (Valid "q" [])));
                   Api.body := Api.Parsed (Some plain_reply) |})
           (UseChat.lit "q") None (Api.Parsed (Some plain_reply)));
    [discriminate | reflexivity].
Defined.

(** ** Further properties of the chat hook *)

Section Hook.
Local Open Scope list_scope.

Lemma ask_accepted (now : UseChat.clock)
    (sendQuestion : UseChat.js_string -> UseChat.api_outcome)
    (question : UseChat.js_string) :
  UseChat.trim question <> [] ->
  exists first reply,
    UseChat.ask false now sendQuestion (Some question)
    = [UseChat.AppendMessage first; UseChat.SetLoading true;
       UseChat.SendQuestion (UseChat.trim question)]
      ++ reply ++ [UseChat.SetLoading false]
    /\ UseChat.role first = UseChat.user
    /\ UseChat.text first = UseChat.trim question
    /\ ((exists response message,
           sendQuestion (UseChat.trim question)
           = UseChat.Resolved (Some response)
           /\ reply = [UseChat.AppendMessage message]
           /\ UseChat.role message = UseChat.assistant
           /\ UseChat.error message = false
           /\ UseChat.text message
              = match UseChat.response_answer response with
                | Some answer => answer
                | None =>
                    UseChat.lit
                      "I processed your request but couldn't format the text response."
                end
           /\ UseChat.chartData message = UseChat.response_chart_data response
           /\ UseChat.query_executed message
              = Some (UseChat.string_or
                        (UseChat.response_query_executed response)
                        (UseChat.lit "Direct knowledge retrieval.")))
        \/ (exists message,
              (sendQuestion (UseChat.trim question) = UseChat.Rejected
               \/ sendQuestion (UseChat.trim question) = UseChat.Resolved None)
              /\ reply = [UseChat.ConsoleError; UseChat.AppendMessage message]
              /\ UseChat.role message = UseChat.assistant
              /\ UseChat.error message = true
              /\ UseChat.text message
                 = UseChat.lit
                     "I'm sorry, I encountered an error while fetching the statistics. Please try again in a moment."
              /\ UseChat.chartData message = None
              /\ UseChat.query_executed message = None)).
Proof.
  intros H. unfold UseChat.ask, UseChat.optional_trim, option_map.
  destruct (UseChat.trim question) as [|c trimmed] eqn:E; [congruence|].
  cbn [UseChat.string_truthy negb orb].
  destruct (sendQuestion (c :: trimmed)) as [[response|]|] eqn:Eout;
    eexists; eexists; (split; [reflexivity|]); cbn;
    repeat split; try reflexivity.
  - left. eexists; eexists; repeat split; reflexivity.
  - right. eexists; repeat split; auto.
  - right. eexists; repeat split; auto.
Qed.



(** X16: when such a call has settled, whether the request succeeded or
    failed, exactly two messages have been appended, the user's with the
    trimmed question and then the assistant's, and [loading] is false. *)
Theorem ask_appends_two_messages (st : UseChat.chat_state)
    (now : UseChat.clock)
    (sendQuestion : UseChat.js_string -> UseChat.api_outcome)
    (question : UseChat.js_string) :
  UseChat.trim question <> [] ->
  exists first reply,
    UseChat.settle st (UseChat.ask false now sendQuestion (Some question))
    = {| UseChat.messages := UseChat.messages st ++ [first; reply];
         UseChat.loading := false |}
    /\ UseChat.role first = UseChat.user
    /\ UseChat.text first = UseChat.trim question
    /\ UseChat.role reply = UseChat.assistant.
Proof.
  intros H.
  destruct (ask_accepted now sendQuestion question H)
    as (first & reply & -> & Hrole & Htext & Hreply).
  destruct Hreply as [(response & message & _ & -> & Hm & _)
                     |(message & _ & -> & Hm & _)];
    exists first, message; cbn; rewrite <- app_assoc; auto.
Qed.

Lemma ask_appends_two_messages_witness :
  exists first reply,
    UseChat.settle fresh
      (UseChat.ask false noon backend_down (Some (UseChat.lit " hi ")))
    = {| UseChat.messages := UseChat.messages fresh ++ [first; reply];
         UseChat.loading := false |}
    /\ UseChat.role first = UseChat.user
    /\ UseChat.text first = UseChat.trim (UseChat.lit " hi ")
    /\ UseChat.role reply = UseChat.assistant.
Proof.
  apply (ask_appends_two_messages fresh noon backend_down (UseChat.lit " hi ")).
  discriminate.
Defined.

(** X17: when the request rejects, or resolves to null, the assistant's
    message is the fixed apology, flagged as an error, with no chart and
    no query: nothing of the failure itself is shown. *)
Theorem failed_request_reply (st : UseChat.chat_state) (now : UseChat.clock)
    (sendQuestion : UseChat.js_string -> UseChat.api_outcome)
    (question : UseChat.js_string) :
  UseChat.trim question <> [] ->
  sendQuestion (UseChat.trim question) = UseChat.Rejected
  \/ sendQuestion (UseChat.trim question) = UseChat.Resolved None ->
  exists first reply,
    UseChat.messages
      (UseChat.settle st (UseChat.ask false now sendQuestion (Some question)))
    = UseChat.messages st ++ [first; reply]
    /\ UseChat.error reply = true
    /\ UseChat.text reply
       = UseChat.lit
           "I'm sorry, I encountered an error while fetching the statistics. Please try again in a moment."
    /\ UseChat.chartData reply = None
    /\ UseChat.query_executed reply = None.
Proof.
  intros H Hfail.
  destruct (ask_accepted now sendQuestion question H)
    as (first & reply & -> & _ & _ & Hreply).
  destruct Hreply as [(response & message & Hok & _)
                     |(message & _ & -> & _ & He & Ht & Hc & Hq)].
  - destruct Hfail as [Hf|Hf]; congruence.
  - exists first, message. cbn. rewrite <- app_assoc. auto.
Qed.

Lemma failed_request_reply_witness :
  exists first reply,
    UseChat.messages
      (UseChat.settle fresh
         (UseChat.ask false noon backend_down (Some (UseChat.lit " hi "))))
    = UseChat.messages fresh ++ [first; reply]
    /\ UseChat.error reply = true
    /\ UseChat.text reply
       = UseChat.lit
           "I'm sorry, I encountered an error while fetching the statistics. Please try again in a moment."
    /\ UseChat.chartData reply = None
    /\ UseChat.query_executed reply = None.
Proof.
  apply (failed_request_reply fresh noon backend_down (UseChat.lit " hi "));
    [discriminate | left; reflexivity].
Defined.



(** X19: as soon as a call of [ask] is accepted, and before the request
    has settled, the user's message is in the list and [loading] is
    true. *)
Theorem request_in_flight (st : UseChat.chat_state) (now : UseChat.clock)
    (sendQuestion : UseChat.js_string -> UseChat.api_outcome)
    (question : UseChat.js_string) :
  UseChat.trim question <> [] ->
  exists first,
    UseChat.settle st
      (App.before_request
         (UseChat.ask false now sendQuestion (Some question)))
    = {| UseChat.messages := UseChat.messages st ++ [first];
         UseChat.loading := true |}
    /\ UseChat.role first = UseChat.user
    /\ UseChat.text first = UseChat.trim question.
Proof.
  intros H.
  destruct (ask_accepted now sendQuestion question H)
    as (first & reply & -> & Hrole & Htext & _).
  exists first. cbn. auto.
Qed.

Lemma request_in_flight_witness :
  exists first,
    UseChat.settle fresh
      (App.before_request
         (UseChat.ask false noon backend_down (Some (UseChat.lit " hi "))))
    = {| UseChat.messages := UseChat.messages fresh ++ [first];
         UseChat.loading := true |}
    /\ UseChat.role first = UseChat.user
    /\ UseChat.text first = UseChat.trim (UseChat.lit " hi ").
Proof.
  apply (request_in_flight fresh noon backend_down (UseChat.lit " hi ")).
  discriminate.
Defined.

(** X20: [clearChat] does not cancel a request in flight: when the chat
    is cleared between the sending of the request and its settling, the
    assistant's message is appended to the emptied list, so that the chat
    then holds that message alone, and [loading] is false. *)
Theorem clear_during_request (st : UseChat.chat_state) (now : UseChat.clock)
    (sendQuestion : UseChat.js_string -> UseChat.api_outcome)
    (question : UseChat.js_string) :
  UseChat.trim question <> [] ->
  exists reply,
    UseChat.settle
      (UseChat.settle
         (UseChat.settle st
            (App.before_request
               (UseChat.ask false now sendQuestion (Some question))))
         UseChat.clearChat)
      (App.after_request (UseChat.ask false now sendQuestion (Some question)))
    = {| UseChat.messages := [reply]; UseChat.loading := false |}
    /\ UseChat.role reply = UseChat.assistant.
Proof.
  intros H.
  destruct (ask_accepted now sendQuestion question H)
    as (first & reply & -> & _ & _ & Hreply).
  destruct Hreply as [(response & message & _ & -> & Hm & _)
                     |(message & _ & -> & Hm & _)];
    exists message; cbn; auto.
Qed.

Lemma clear_during_request_witness :
  exists reply,
    UseChat.settle
      (UseChat.settle
         (UseChat.settle fresh
            (App.before_request
               (UseChat.ask false noon backend_down
                  (Some (UseChat.lit " hi ")))))
         UseChat.clearChat)
      (App.after_request
         (UseChat.ask false noon backend_down (Some (UseChat.lit " hi "))))
    = {| UseChat.messages := [reply]; UseChat.loading := false |}
    /\ UseChat.role reply = UseChat.assistant.
Proof.
  apply (clear_during_request fresh noon backend_down (UseChat.lit " hi ")).
  discriminate.
Defined.

(** X21: the hook never sends the conversation: what a call of [ask]
    does depends on the backend only through its response to the body
    [{question: <trimmed question>, conversation_history: []}]. *)
Theorem hook_sends_no_history
    (fetch fetch' : Api.request_body -> Api.fetch_outcome)
    (loading : bool) (now : UseChat.clock) (question : UseChat.js_string) :
  fetch {| Api.question := UseChat.trim question;
           Api.conversation_history := [] |}
  = fetch' {| Api.question := UseChat.trim question;
              Api.conversation_history := [] |} ->
  UseChat.ask loading now (App.hook_sendQuestion fetch) (Some question)
  = UseChat.ask loading now (App.hook_sendQuestion fetch') (Some question).
Proof.
  intros H. unfold UseChat.ask, UseChat.optional_trim, option_map.
  destruct (negb (UseChat.string_truthy (Some (UseChat.trim question)))
            || loading); [reflexivity|].
  unfold App.hook_sendQuestion, Api.sendQuestion. now rewrite H.
Qed.

Lemma hook_sends_no_history_witness :
  UseChat.ask false noon (App.hook_sendQuestion failing_fetch)
              (Some (UseChat.lit " hi "))
  = UseChat.ask false noon
      (App.hook_sendQuestion
         (fun body =>
            match Api.conversation_history body with
            | [] => failing_fetch body
            | _ :: _ => answering_fetch body
            end))
      (Some (UseChat.lit " hi ")).
Proof.
  apply (hook_sends_no_history failing_fetch
           (fun body =>
              match Api.conversation_history body with
              | [] => failing_fetch body
              | _ :: _ => answering_fetch body
              end)
           false noon (UseChat.lit " hi ")).
  reflexivity.
Defined.

(** ** The input box *)

(** X22: the form, the Enter key and the submit button agree: a submit
    hands the input to [onSend] exactly when the button is enabled, that
    is when the input is not blank and the box is not disabled; Enter
    without Shift does what the form does, and a key pressed with Shift
    sends nothing. *)
Theorem input_box_guards_agree (event : bool) (input : UseChat.js_string)
    (disabled : bool) :
  ChatInput.sent (ChatInput.handleSubmit event input disabled)
  = (if ChatInput.submit_disabled input disabled then [] else [input])
  /\ ChatInput.sent
       (ChatInput.handleKeyDown (UseChat.lit "Enter") false input disabled)
     = ChatInput.sent (ChatInput.handleSubmit event input disabled)
  /\ (forall key,
        ChatInput.handleKeyDown key true input disabled = []).
Proof.
  unfold ChatInput.handleKeyDown, ChatInput.handleSubmit,
    ChatInput.submit_disabled.
  destruct (list_eq_dec N.eq_dec (UseChat.lit "Enter") (UseChat.lit "Enter"))
    as [_|ne]; [|now elim ne].
  repeat split.
  - destruct event, (UseChat.string_truthy (Some (UseChat.trim input))),
      disabled; reflexivity.
  - destruct event, (UseChat.string_truthy (Some (UseChat.trim input))),
      disabled; reflexivity.
  - intros key. now rewrite andb_false_r.
Qed.

(** X23: with the input box wired to the hook as the application wires
    it, no question is lost: either the submit does nothing (the input
    stays in the box and no request is sent), or the box is cleared and
    the hook sends exactly one request, with the trimmed input. *)
Theorem submit_never_loses_a_question (loading : bool) (now : UseChat.clock)
    (sendQuestion : UseChat.js_string -> UseChat.api_outcome)
    (input : UseChat.js_string) :
  (App.submit loading now sendQuestion input = ([ChatInput.PreventDefault], []))
  \/ (fst (App.submit loading now sendQuestion input)
      = [ChatInput.PreventDefault; ChatInput.OnSend input;
         ChatInput.SetInput []; ChatInput.ResetHeightLater]
      /\ UseChat.requests (snd (App.submit loading now sendQuestion input))
         = [UseChat.trim input]).
Proof.
  unfold App.submit, ChatInput.handleSubmit.
  destruct (UseChat.trim input) as [|c trimmed] eqn:E; cbn;
    [now left|].
  destruct loading; cbn; [now left|].
  right. split; [reflexivity|].
  rewrite app_nil_r.
  assert (H : UseChat.trim input <> []) by (rewrite E; discriminate).
  destruct (ask_accepted now sendQuestion input H)
    as (first & reply & -> & _ & _ & Hreply).
  rewrite E.
  destruct Hreply as [(response & message & _ & -> & _)
                     |(message & _ & -> & _)]; reflexivity.
Qed.

(** ** The charts *)

Lemma points_from_nth (labels : list UseChat.js_string) (values : list Z)
    (index i : nat) :
  nth_error (Charts.points_from index labels values) i
  = option_map
      (fun label =>
         {| Charts.name := label;
            Charts.value := nth_error values (index + i) |})
      (nth_error labels i).
Proof.
  revert index i.
  induction labels as [|label labels IH]; intros index i.
  - now destruct i.
  - destruct i as [|i]; cbn.
    + now rewrite Nat.add_0_r.
    + rewrite IH. now rewrite Nat.add_succ_r.
Qed.

Lemma points_from_names (labels : list UseChat.js_string) (values : list Z)
    (index : nat) :
  map Charts.name (Charts.points_from index labels values) = labels.
Proof.
  revert index.
  induction labels as [|label labels IH]; intros index; cbn;
    [reflexivity | now rewrite IH].
Qed.

Lemma points_from_values (labels : list UseChat.js_string) (values : list Z)
    (done : list Z) :
  List.length labels = List.length values ->
  map Charts.value
      (Charts.points_from (List.length done) labels (done ++ values))
  = map Some values.
Proof.
  revert values done.
  induction labels as [|label labels IH]; intros values done H;
    destruct values as [|v values]; try discriminate; [reflexivity|].
  cbn [Charts.points_from map Charts.value].
  rewrite nth_error_app2 by lia. rewrite Nat.sub_diag. cbn [nth_error].
  f_equal.
  replace (done ++ v :: values) with ((done ++ [v]) ++ values)
    by now rewrite <- app_assoc.
  replace (S (List.length done)) with (List.length (done ++ [v]))
    by (rewrite length_app; cbn; lia).
  apply IH. now injection H.
Qed.

(** X24: a bar or line chart has one point for each label, in order, and
    the point of label [i] has the value at position [i], undefined when
    there is none; values beyond the labels are not drawn.  When there
    are as many values as labels, the points are the labels paired with
    the values. *)
Theorem chart_points_pair_by_position (data : UseChat.ChartData) :
  map Charts.name (Charts.chartData data) = UseChat.labels data
  /\ (forall i,
        i < List.length (UseChat.labels data) ->
        option_map Charts.value (nth_error (Charts.chartData data) i)
        = Some (nth_error (UseChat.values data) i))
  /\ (List.length (UseChat.labels data) = List.length (UseChat.values data) ->
      map Charts.value (Charts.chartData data)
      = map Some (UseChat.values data)).
Proof.
  unfold Charts.chartData. repeat split.
  - apply points_from_names.
  - intros i Hi. rewrite points_from_nth. cbn [Nat.add].
    apply nth_error_Some in Hi.
    destruct (nth_error (UseChat.labels data) i); [reflexivity | congruence].
  - intros H. exact (points_from_values _ _ [] H).
Qed.

End Hook.
